(** * UpCloud cluster-autoscaler provider: node group controller and manager

    A shallow embedding of the UpCloud cloud provider of the Kubernetes
    cluster autoscaler (package [upcloud]): the node group controller
    ([upCloudNodeGroup]), the manager ([Manager.Refresh]), the node
    resolution of the cloud provider ([NodeGroupForNode]) and the two state
    mappers.

    Conventions of the embedding:
    - Go's [int] (64 bit on the amd64 target the repository builds for) is a
      [Z]; the additions the code performs wrap around ([Go.add]).
    - A Go [(value, error)] result is a [Result]; callers in the source read
      the value only when the error is nil.
    - The remote service ([upCloudService], an interface in the source) and
      the process clock ([time.Now], [time.Sleep]) form the environment, an
      abstract state threaded through every call. The [World] adds to it
      the log of the remote calls issued so far, with their outcomes.
    - The controller is passed and returned explicitly: the source mutates
      [u.size] through the pointer receiver.
    - The mutexes and the [klog] output have no effect on a sequential run
      and are left out. *)

From Stdlib Require Import ZArith List Ascii String Bool Lia.
Import ListNotations.
Open Scope Z_scope.

Set Implicit Arguments.

(** ** Go integers and results *)

Module Go.

Definition int_bits : Z := 64.
Definition min_int : Z := - 2 ^ (int_bits - 1).
Definition max_int : Z := 2 ^ (int_bits - 1) - 1.

(** Two's complement wrap-around of a mathematical integer to [int]. *)
Definition wrap (z : Z) : Z :=
  (z - min_int) mod 2 ^ int_bits + min_int.

(** [a + b] on [int]. *)
Definition add (a b : Z) : Z := wrap (a + b).

Definition in_range (z : Z) : Prop := min_int <= z <= max_int.

(** Durations are nanosecond counts, as [time.Duration]. *)
Definition Nanosecond : Z := 1.
Definition Second : Z := 1000000000 * Nanosecond.
Definition Minute : Z := 60 * Second.

End Go.

(** The error values the package builds. Each constructor stands for one
    [fmt.Errorf] format string of the source (or for an error that comes
    from outside the package), its arguments for the formatted values;
    [%w] keeps the wrapped error. *)
Inductive error : Type :=
| ErrDelta (delta : Z)
    (* "failed to increase node group size, delta=%d",
       used by IncreaseSize and by DecreaseTargetSize alike *)
| ErrIncrease (current want max : Z)
    (* "failed to increase node group size, current=%d want=%d max=%d" *)
| ErrDecrease (current want min : Z)
    (* "failed to decrease node group size, current=%d want=%d min=%d" *)
| ErrScale (name : string) (cause : error)
    (* "failed to scale node group %s, %w" *)
| ErrFetch (id : string) (cause : error)
    (* "failed to fetch node group %s, %w" *)
| ErrTimedOut (id : string) (i : Z)
    (* "node group %s state check (%d) timed out" *)
| ErrRemote (msg : string)
    (* an error returned by the remote service *)
| ErrNotImplemented
    (* cloudprovider.ErrNotImplemented *).

Inductive Result (A : Type) : Type :=
| Ok (a : A)
| Err (e : error).
Arguments Ok {A} a.
Arguments Err {A} e.

(** ** The vendored API types ([upcloud], [request]) and [cloudprovider] *)

Module upcloud.

(** [KubernetesNodeGroupState] and [KubernetesNodeState] are string types. *)
Definition KubernetesNodeGroupState := string.
Definition KubernetesNodeState := string.

Record KubernetesNode : Type := {
  UUID : string;
  NodeName : string;
  NodeState : KubernetesNodeState
}.

Record KubernetesNodeGroup : Type := {
  Name : string;
  Count : Z;
  State : KubernetesNodeGroupState
}.

Record KubernetesNodeGroupDetails : Type := {
  Group : KubernetesNodeGroup;
  Nodes : list KubernetesNode
}.

(** The state constants of the vendored package, whose declarations are
    not among the sources: they are parameters here. The three node
    states label the cases of one [switch] in
    [nodeStateToInstanceStatus], which Go compiles only when they are
    pairwise distinct. *)
Class StateConstants : Type := {
  KubernetesNodeGroupStateRunning : KubernetesNodeGroupState;
  KubernetesNodeStateRunning : KubernetesNodeState;
  KubernetesNodeStateTerminating : KubernetesNodeState;
  KubernetesNodeStatePending : KubernetesNodeState;
  node_states_distinct :
    NoDup [KubernetesNodeStateRunning; KubernetesNodeStateTerminating;
           KubernetesNodeStatePending]
}.

End upcloud.

Module request.

Record GetKubernetesNodeGroupsRequest : Type := {
  GroupsClusterUUID : string
}.

Record GetKubernetesNodeGroupRequest : Type := {
  GetClusterUUID : string;
  GetName : string
}.

Record ModifyKubernetesNodeGroupRequest : Type := {
  ModifyClusterUUID : string;
  ModifyName : string;
  ModifyCount : Z
}.

Record DeleteKubernetesNodeGroupNodeRequest : Type := {
  DeleteClusterUUID : string;
  DeleteName : string;
  DeleteNodeName : string
}.

End request.

Module cloudprovider.

(** [InstanceState] is an [int] with three named values; a variable of
    the type that is never assigned holds the zero value. *)
Inductive InstanceState : Type :=
| InstanceStateZero
| InstanceRunning
| InstanceCreating
| InstanceDeleting.

Inductive InstanceErrorClass : Type :=
| OutOfResourcesErrorClass
| OtherErrorClass.

Record InstanceErrorInfo : Type := {
  ErrorClass : InstanceErrorClass;
  ErrorCode : string
}.

Record InstanceStatus : Type := {
  InstState : InstanceState;
  ErrorInfo : option InstanceErrorInfo
}.

Record Instance : Type := {
  Id : string;
  Status : InstanceStatus
}.

End cloudprovider.

(** [apiv1.Node], reduced to the two fields the package reads. *)
Record Node : Type := {
  ObjectMetaName : string;
  SpecProviderID : string
}.
Definition GetName (n : Node) : string := ObjectMetaName n.

(** ** The environment: remote service and clock *)

(** [upCloudService] is the interface of the source; an implementation acts
    on its own state [E]. [now] reads the clock ([time.Now], in
    nanoseconds) and [sleep] is [time.Sleep]. The two laws say that the
    clock is monotonic: sleeping for [d] advances it by [d] at least, and a
    group read does not move it backwards. *)
Class upCloudService (E : Type) : Type := {
  GetKubernetesNodeGroups :
    request.GetKubernetesNodeGroupsRequest -> E ->
    Result (list upcloud.KubernetesNodeGroup) * E;
  GetKubernetesNodeGroup :
    request.GetKubernetesNodeGroupRequest -> E ->
    Result upcloud.KubernetesNodeGroup * E;
  ModifyKubernetesNodeGroup :
    request.ModifyKubernetesNodeGroupRequest -> E ->
    Result upcloud.KubernetesNodeGroup * E;
  DeleteKubernetesNodeGroupNode :
    request.DeleteKubernetesNodeGroupNodeRequest -> E ->
    option error * E;
  GetKubernetesNodeGroupDetails :
    request.GetKubernetesNodeGroupRequest -> E ->
    Result upcloud.KubernetesNodeGroupDetails * E;
  now : E -> Z;
  sleep : Z -> E -> E;
  sleep_advances : forall d e, now e + d <= now (sleep d e);
  read_monotone : forall r e, now e <= now (snd (GetKubernetesNodeGroup r e))
}.

(** One remote call with its outcome. *)
Inductive Event : Type :=
| EvGetKubernetesNodeGroups
    (r : request.GetKubernetesNodeGroupsRequest)
    (res : Result (list upcloud.KubernetesNodeGroup))
| EvGetKubernetesNodeGroup
    (r : request.GetKubernetesNodeGroupRequest)
    (res : Result upcloud.KubernetesNodeGroup)
| EvModifyKubernetesNodeGroup
    (r : request.ModifyKubernetesNodeGroupRequest)
    (res : Result upcloud.KubernetesNodeGroup)
| EvDeleteKubernetesNodeGroupNode
    (r : request.DeleteKubernetesNodeGroupNodeRequest)
    (res : option error)
| EvGetKubernetesNodeGroupDetails
    (r : request.GetKubernetesNodeGroupRequest)
    (res : Result upcloud.KubernetesNodeGroupDetails).

Record World (E : Type) : Type := {
  env : E;
  log : list Event
}.

(** The constants of upcloud_cloud_provider.go. *)
Definition timeoutGetRequest : Z := Go.Second * 10.
Definition timeoutModifyNodeGroup : Z := Go.Second * 20.
Definition timeoutDeleteNode : Z := Go.Second * 20.
Definition timeoutWaitNodeGroupState : Z := Go.Minute * 20.
Definition nodeGroupMinSize : Z := 1.
Definition nodeGroupMaxSize : Z := 20.

(** The pause between two polls, [3 * time.Second]. *)
Definition pollInterval : Z := 3 * Go.Second.

(** [upCloudNodeGroup]; [clusterID] is held in its string form
    ([uuid.UUID.String]). The [svc] field is the environment. *)
Record upCloudNodeGroup : Type := {
  clusterID : string;
  name : string;
  size : Z;
  minSize : Z;
  maxSize : Z;
  nodes : list cloudprovider.Instance
}.

Definition set_size (u : upCloudNodeGroup) (n : Z) : upCloudNodeGroup :=
  {| clusterID := clusterID u; name := name u; size := n;
     minSize := minSize u; maxSize := maxSize u; nodes := nodes u |}.

(** ** The node group controller *)

Section Controller.

Context {E : Type} `{Svc : upCloudService E}.
Context `{Consts : upcloud.StateConstants}.

(** The remote calls, as the controller issues them: the call runs
    against the environment and is appended to the log. *)
Definition record (w : World E) (e' : E) (ev : Event) : World E :=
  {| env := e'; log := log w ++ [ev] |}.

Definition callGetKubernetesNodeGroups
    (r : request.GetKubernetesNodeGroupsRequest) (w : World E) :=
  let '(res, e') := GetKubernetesNodeGroups r (env w) in
  (res, record w e' (EvGetKubernetesNodeGroups r res)).

Definition callGetKubernetesNodeGroup
    (r : request.GetKubernetesNodeGroupRequest) (w : World E) :=
  let '(res, e') := GetKubernetesNodeGroup r (env w) in
  (res, record w e' (EvGetKubernetesNodeGroup r res)).

Definition callModifyKubernetesNodeGroup
    (r : request.ModifyKubernetesNodeGroupRequest) (w : World E) :=
  let '(res, e') := ModifyKubernetesNodeGroup r (env w) in
  (res, record w e' (EvModifyKubernetesNodeGroup r res)).

Definition callDeleteKubernetesNodeGroupNode
    (r : request.DeleteKubernetesNodeGroupNodeRequest) (w : World E) :=
  let '(res, e') := DeleteKubernetesNodeGroupNode r (env w) in
  (res, record w e' (EvDeleteKubernetesNodeGroupNode r res)).

Definition callGetKubernetesNodeGroupDetails
    (r : request.GetKubernetesNodeGroupRequest) (w : World E) :=
  let '(res, e') := GetKubernetesNodeGroupDetails r (env w) in
  (res, record w e' (EvGetKubernetesNodeGroupDetails r res)).

Definition timeSleep (d : Z) (w : World E) : World E :=
  {| env := sleep d (env w); log := log w |}.

Definition timeNow (w : World E) : Z := now (env w).

(** [Id]: "%s/%s" of the cluster id and the name. *)
Definition Id (u : upCloudNodeGroup) : string :=
  (clusterID u ++ "/" ++ name u)%string.

Definition MinSize (u : upCloudNodeGroup) : Z := minSize u.
Definition MaxSize (u : upCloudNodeGroup) : Z := maxSize u.

Definition TargetSize (u : upCloudNodeGroup) : Z * option error :=
  (size u, None).

Definition Nodes (u : upCloudNodeGroup)
  : list cloudprovider.Instance * option error :=
  (nodes u, None).

(** The requests of the controller, each built from its cluster id and
    its name. *)
Definition groupRequest (u : upCloudNodeGroup)
  : request.GetKubernetesNodeGroupRequest :=
  {| request.GetClusterUUID := clusterID u; request.GetName := name u |}.

Definition modifyRequest (u : upCloudNodeGroup) (count : Z)
  : request.ModifyKubernetesNodeGroupRequest :=
  {| request.ModifyClusterUUID := clusterID u;
     request.ModifyName := name u;
     request.ModifyCount := count |}.

Definition deleteRequest (u : upCloudNodeGroup) (nodeName : string)
  : request.DeleteKubernetesNodeGroupNodeRequest :=
  {| request.DeleteClusterUUID := clusterID u;
     request.DeleteName := name u;
     request.DeleteNodeName := nodeName |}.

(** The loop of [waitNodeGroupState]:
    [for time.Now().Before(deadline) { ... }] with the counter [i].
    Every turn that does not return sleeps for [pollInterval], so the
    loop makes at most [(deadline - now) / pollInterval] turns, rounded
    up; [fuel] counts the turns that are left. [waitFrom_eq] below shows
    that with the fuel [waitNodeGroupState] passes the function satisfies
    the equation of the source loop, whatever the environment does: the
    fuel never runs out before the deadline has passed. *)
Fixpoint waitLoop (fuel : nat) (u : upCloudNodeGroup)
    (state : upcloud.KubernetesNodeGroupState) (deadline : Z) (i : Z)
    (w : World E) : Result upcloud.KubernetesNodeGroup * World E :=
  match fuel with
  | O => (Err (ErrTimedOut (Id u) i), w)
  | S fuel' =>
      if timeNow w <? deadline then
        let '(res, w1) := callGetKubernetesNodeGroup (groupRequest u) w in
        match res with
        | Err err => (Err (ErrFetch (Id u) err), w1)
        | Ok g =>
            if String.eqb (upcloud.State g) state then (Ok g, w1)
            else waitLoop fuel' u state deadline (Go.add i 1)
                   (timeSleep pollInterval w1)
        end
      else (Err (ErrTimedOut (Id u) i), w)
  end.

(** Turns that fit between [t] and [deadline]. *)
Definition turns (deadline t : Z) : nat :=
  Z.to_nat ((deadline - t + pollInterval - 1) / pollInterval).

(** The loop entered at [w], with the fuel for the time that is left. *)
Definition waitFrom (u : upCloudNodeGroup)
    (state : upcloud.KubernetesNodeGroupState) (deadline : Z) (i : Z)
    (w : World E) : Result upcloud.KubernetesNodeGroup * World E :=
  waitLoop (turns deadline (timeNow w)) u state deadline i w.

Definition waitNodeGroupState (u : upCloudNodeGroup)
    (state : upcloud.KubernetesNodeGroupState) (timeout : Z) (w : World E)
  : Result upcloud.KubernetesNodeGroup * World E :=
  let deadline := timeNow w + timeout in
  waitFrom u state deadline 1 w.

(** [scaleNodeGroup]: one modify request, then the wait for [Running];
    the cached size is written from the group the wait returns. *)
Definition scaleNodeGroup (size' : Z) (u : upCloudNodeGroup) (w : World E)
  : option error * upCloudNodeGroup * World E :=
  let '(res, w1) :=
    callModifyKubernetesNodeGroup (modifyRequest u size') w in
  match res with
  | Err err => (Some (ErrScale (name u) err), u, w1)
  | Ok _ =>
      let '(res', w2) :=
        waitNodeGroupState u upcloud.KubernetesNodeGroupStateRunning
          timeoutWaitNodeGroupState w1 in
      match res' with
      | Err err => (Some err, u, w2)
      | Ok nodeGroup => (None, set_size u (upcloud.Count nodeGroup), w2)
      end
  end.

Definition IncreaseSize (delta : Z) (u : upCloudNodeGroup) (w : World E)
  : option error * upCloudNodeGroup * World E :=
  if delta <=? 0 then (Some (ErrDelta delta), u, w)
  else
    let size' := Go.add (size u) delta in
    if size' >? MaxSize u
    then (Some (ErrIncrease (size u) size' (MaxSize u)), u, w)
    else scaleNodeGroup size' u w.

Definition DecreaseTargetSize (delta : Z) (u : upCloudNodeGroup)
    (w : World E) : option error * upCloudNodeGroup * World E :=
  if delta >=? 0 then (Some (ErrDelta delta), u, w)
  else
    let size' := Go.add (size u) delta in
    if size' <? MinSize u
    then (Some (ErrDecrease (size u) size' (MinSize u)), u, w)
    else scaleNodeGroup size' u w.

Definition deleteNode (u : upCloudNodeGroup) (nodeName : string)
    (w : World E) : option error * World E :=
  callDeleteKubernetesNodeGroupNode (deleteRequest u nodeName) w.

(** [DeleteNodes]: the [for i := range nodes] loop, by recursion on the
    nodes that are left. *)
Fixpoint DeleteNodes (nodes' : list Node) (u : upCloudNodeGroup)
    (w : World E) : option error * upCloudNodeGroup * World E :=
  match nodes' with
  | [] => (None, u, w)
  | n :: rest =>
      match deleteNode u (GetName n) w with
      | (Some err, w1) => (Some err, u, w1)
      | (None, w1) =>
          let '(res, w2) :=
            waitNodeGroupState u upcloud.KubernetesNodeGroupStateRunning
              timeoutWaitNodeGroupState w1 in
          match res with
          | Err err => (Some err, u, w2)
          | Ok nodeGroup =>
              DeleteNodes rest (set_size u (upcloud.Count nodeGroup)) w2
          end
      end
  end.

(** ** The manager that reads the node group details *)

(** [nodeStateToInstanceStatus]: the [switch] takes the first case that
    matches; [s] and [e] start as the zero value and nil. *)
Definition nodeStateToInstanceStatus (nodeState : upcloud.KubernetesNodeState)
  : cloudprovider.InstanceStatus :=
  if String.eqb nodeState upcloud.KubernetesNodeStateRunning then
    {| cloudprovider.InstState := cloudprovider.InstanceRunning;
       cloudprovider.ErrorInfo := None |}
  else if String.eqb nodeState upcloud.KubernetesNodeStateTerminating then
    {| cloudprovider.InstState := cloudprovider.InstanceDeleting;
       cloudprovider.ErrorInfo := None |}
  else if String.eqb nodeState upcloud.KubernetesNodeStatePending then
    {| cloudprovider.InstState := cloudprovider.InstanceCreating;
       cloudprovider.ErrorInfo := None |}
  else
    {| cloudprovider.InstState := cloudprovider.InstanceStateZero;
       cloudprovider.ErrorInfo :=
         Some {| cloudprovider.ErrorClass := cloudprovider.OtherErrorClass;
                 cloudprovider.ErrorCode := nodeState |} |}.

(** The instance a node is cached as: "upcloud:////%s" of its UUID. *)
Definition instanceOfNode (node : upcloud.KubernetesNode)
  : cloudprovider.Instance :=
  {| cloudprovider.Id := ("upcloud:////" ++ upcloud.UUID node)%string;
     cloudprovider.Status :=
       nodeStateToInstanceStatus (upcloud.NodeState node) |}.

(** [nodeGroupNodes]: the instances and the error, as the source returns
    them; [instances] is empty when the read fails. The loop appends one
    instance per node, in order. *)
Definition nodeGroupNodes (cluster name' : string) (w : World E)
  : (list cloudprovider.Instance * option error) * World E :=
  let '(res, w1) :=
    callGetKubernetesNodeGroupDetails
      {| request.GetClusterUUID := cluster; request.GetName := name' |} w in
  match res with
  | Err err => (([], Some err), w1)
  | Ok ng =>
      ((fold_left (fun instances node => instances ++ [instanceOfNode node])
          (upcloud.Nodes ng) [], None), w1)
  end.

Record Manager : Type := {
  managerClusterID : string;
  nodeGroups : list upCloudNodeGroup
}.

(** The loop of [Refresh] over the listed groups; [groups] is the slice
    under construction. A group whose nodes cannot be read is passed
    over ([continue]). *)
Fixpoint refreshLoop (m : Manager)
    (upcloudNodeGroups : list upcloud.KubernetesNodeGroup)
    (groups : list upCloudNodeGroup) (w : World E)
  : list upCloudNodeGroup * World E :=
  match upcloudNodeGroups with
  | [] => (groups, w)
  | g :: rest =>
      let '((nodes', err), w1) :=
        nodeGroupNodes (managerClusterID m) (upcloud.Name g) w in
      match err with
      | Some _ => refreshLoop m rest groups w1
      | None =>
          let group :=
            {| clusterID := managerClusterID m;
               name := upcloud.Name g;
               size := upcloud.Count g;
               minSize := nodeGroupMinSize;
               maxSize := nodeGroupMaxSize;
               nodes := nodes' |} in
          refreshLoop m rest (groups ++ [group]) w1
      end
  end.

Definition Refresh (m : Manager) (w : World E)
  : option error * Manager * World E :=
  let groups : list upCloudNodeGroup := [] in
  let '(res, w1) :=
    callGetKubernetesNodeGroups
      {| request.GroupsClusterUUID := managerClusterID m |} w in
  match res with
  | Err err => (Some err, m, w1)
  | Ok upcloudNodeGroups =>
      let '(groups', w2) := refreshLoop m upcloudNodeGroups groups w1 in
      (None,
       {| managerClusterID := managerClusterID m; nodeGroups := groups' |},
       w2)
  end.

(** ** The cloud provider (upcloud_cloud_provider.go) *)

Record upCloudCloudProvider : Type := {
  manager : Manager
}.

(** The inner loop of [NodeGroupForNode]: is some cached instance of the
    group the one with this provider ID? *)
Fixpoint hasInstance (providerID : string)
    (nodes' : list cloudprovider.Instance) : bool :=
  match nodes' with
  | [] => false
  | n :: rest =>
      if String.eqb (cloudprovider.Id n) providerID then true
      else hasInstance providerID rest
  end.

(** The outer loop; the result is the group (nil when there is none) and
    the error. *)
Fixpoint groupForProviderID (providerID : string)
    (groups : list upCloudNodeGroup)
  : option upCloudNodeGroup * option error :=
  match groups with
  | [] => (None, None)
  | group :: rest =>
      match Nodes group with
      | (_, Some err) => (None, Some err)
      | (nodes', None) =>
          if hasInstance providerID nodes' then (Some group, None)
          else groupForProviderID providerID rest
      end
  end.

Definition NodeGroupForNode (p : upCloudCloudProvider) (node : Node)
  : option upCloudNodeGroup * option error :=
  let providerID := SpecProviderID node in
  groupForProviderID providerID (nodeGroups (manager p)).

End Controller.

(** ** The earlier manager (upcloud_manager.go) *)

(** [serverStateToInstanceStatus], the mapper of the manager that reads
    server groups; the server states are string literals in the source. *)
Definition serverStateToInstanceStatus (serverStatus : string)
  : cloudprovider.InstanceStatus :=
  if String.eqb serverStatus "started" then
    {| cloudprovider.InstState := cloudprovider.InstanceRunning;
       cloudprovider.ErrorInfo := None |}
  else if String.eqb serverStatus "maintenance"
          || String.eqb serverStatus "stopped" then
    {| cloudprovider.InstState := cloudprovider.InstanceDeleting;
       cloudprovider.ErrorInfo := None |}
  else
    {| cloudprovider.InstState := cloudprovider.InstanceStateZero;
       cloudprovider.ErrorInfo :=
         Some {| cloudprovider.ErrorClass := cloudprovider.OtherErrorClass;
                 cloudprovider.ErrorCode := serverStatus |} |}.

(** ** The rest of the controller *)

(** The operations the controller does not support return
    [cloudprovider.ErrNotImplemented]. *)
Definition Autoprovisioned (u : upCloudNodeGroup) : bool := false.

Definition Create (u : upCloudNodeGroup)
  : option upCloudNodeGroup * option error :=
  (None, Some ErrNotImplemented).

Definition Delete (u : upCloudNodeGroup) : option error :=
  Some ErrNotImplemented.

Definition AtomicIncreaseSize (u : upCloudNodeGroup) (delta : Z)
  : option error :=
  Some ErrNotImplemented.

(** [Exist]: [u.name != ""]. *)
Definition Exist (u : upCloudNodeGroup) : bool :=
  negb (String.eqb (name u) "").

(** [a * b] on [int]. *)
Definition intMul (a b : Z) : Z := Go.wrap (a * b).

(** Further types of the vendored package: [upcloud.Plan],
    [upcloud.KubernetesTaint] and [upcloud.Label], with the fields the
    package reads. *)
Module upcloudapi.

Record Plan : Type := {
  CoreNumber : Z;
  MemoryAmount : Z;
  StorageSize : Z
}.

Record KubernetesTaint : Type := {
  TaintEffect : string;
  TaintKey : string;
  TaintValue : string
}.

Record Label : Type := {
  Key : string;
  Value : string
}.

End upcloudapi.

Module apiv1.

Record Taint : Type := {
  Key : string;
  Value : string;
  Effect : string
}.

(** The zero value of [Taint], as [make] fills a slice with. *)
Definition zeroTaint : Taint :=
  {| Key := ""; Value := ""; Effect := "" |}.

(** [ResourceList], for the four resources the template sets; a quantity
    made by [resource.NewQuantity] is held as its [int64] value. *)
Record ResourceList : Type := {
  ResourceCPU : Z;
  ResourceMemory : Z;
  ResourcePods : Z;
  ResourceEphemeralStorage : Z
}.

(** [Node], with the fields the template sets; [Labels] is a Go map. *)
Record Node : Type := {
  Name : string;
  Labels : string -> option string;
  ProviderID : string;
  Taints : list Taint;
  Allocatable : ResourceList;
  Capacity : ResourceList
}.

End apiv1.

Module schedulerframework.

Record Resource : Type := {
  MilliCPU : Z;
  Memory : Z;
  AllowedPodNumber : Z;
  EphemeralStorage : Z
}.

(** [NodeInfo], with the two resources the template sets and the node that
    [SetNode] stores. *)
Record NodeInfo : Type := {
  Requested : Resource;
  Allocatable : Resource;
  node : apiv1.Node
}.

End schedulerframework.

(** The fields of [upCloudNodeGroup] that only [TemplateNodeInfo] reads. *)
Record templateShape : Type := {
  plan : upcloudapi.Plan;
  taints : list upcloudapi.KubernetesTaint;
  labels : list upcloudapi.Label
}.

(** [m[k] = v] on a Go map of strings. *)
Definition mapSet (m : string -> option string) (k v : string)
  : string -> option string :=
  fun k' => if String.eqb k' k then Some v else m k'.

(** The [labels] loop of [TemplateNodeInfo], from the empty map. *)
Definition templateLabels (ls : list upcloudapi.Label)
  : string -> option string :=
  fold_left (fun m l => mapSet m (upcloudapi.Key l) (upcloudapi.Value l))
    ls (fun _ => None).

Definition taintOf (t : upcloudapi.KubernetesTaint) : apiv1.Taint :=
  {| apiv1.Effect := upcloudapi.TaintEffect t;
     apiv1.Key := upcloudapi.TaintKey t;
     apiv1.Value := upcloudapi.TaintValue t |}.

(** The taints loop: [tains := make([]apiv1.Taint, len(u.taints))] is a
    slice of that many zero values, and every turn appends to it. *)
Definition templateTaints (ts : list upcloudapi.KubernetesTaint)
  : list apiv1.Taint :=
  fold_left (fun tains t => tains ++ [taintOf t]) ts
    (repeat apiv1.zeroTaint (List.length ts)).

(** [TemplateNodeInfo]. [Quantity.Value] of a quantity made from an
    [int64] is that value and [MilliValue] a thousand times it; the
    fields of [Resource] that the source leaves out are zero. *)
Definition TemplateNodeInfo (u : upCloudNodeGroup) (s : templateShape)
  : Result schedulerframework.NodeInfo :=
  if size u >? 0 then Err ErrNotImplemented
  else
    let cpuQuantity := intMul (upcloudapi.CoreNumber (plan s)) 1000 in
    let memoryQuantity :=
      intMul (intMul (upcloudapi.MemoryAmount (plan s)) 1024) 1024 in
    let podsQuantity := 110 in
    let ephemeralStorageQuantity :=
      if upcloudapi.MemoryAmount (plan s) >? 0
      then intMul (intMul (upcloudapi.MemoryAmount (plan s)) 1024) 1024
      else 21559343316992 in
    let resourceList :=
      {| apiv1.ResourceCPU := cpuQuantity;
         apiv1.ResourceMemory := memoryQuantity;
         apiv1.ResourcePods := podsQuantity;
         apiv1.ResourceEphemeralStorage := ephemeralStorageQuantity |} in
    Ok {| schedulerframework.Requested :=
            {| schedulerframework.MilliCPU := 100 * 1000;
               schedulerframework.Memory := 100 * 1024 * 1024;
               schedulerframework.AllowedPodNumber := 0;
               schedulerframework.EphemeralStorage := 0 |};
          schedulerframework.Allocatable :=
            {| schedulerframework.MilliCPU := cpuQuantity;
               schedulerframework.Memory := memoryQuantity;
               schedulerframework.AllowedPodNumber := podsQuantity;
               schedulerframework.EphemeralStorage :=
                 ephemeralStorageQuantity |};
          schedulerframework.node :=
            {| apiv1.Name := ("upcloud-template-" ++ name u)%string;
               apiv1.Labels := templateLabels (labels s);
               apiv1.ProviderID := ("upcloud:////" ++ name u)%string;
               apiv1.Taints := templateTaints (taints s);
               apiv1.Allocatable := resourceList;
               apiv1.Capacity := resourceList |} |}.

(** ** The configuration of the cloud provider *)

Definition envUpCloudUsername : string := "UPCLOUD_USERNAME".
Definition envUpCloudPassword : string := "UPCLOUD_PASSWORD".
Definition envUpCloudClusterID : string := "UPCLOUD_CLUSTER_ID".

Record upCloudConfig : Type := {
  ClusterID : string;
  Username : string;
  Password : string;
  UserAgent : string
}.

(** [config.AutoscalingOptions], with the field the package reads. *)
Record AutoscalingOptions : Type := {
  OptionsUserAgent : string
}.

(** The errors of the configuration code: "environment variable %s not
    set", the autoscaler error "UpCloud API credentials not configured",
    and "cluster ID %s is not valid UUID %w". *)
Inductive configError : Type :=
| ErrEnvNotSet (variable : string)
| ErrCredentialsNotConfigured
| ErrNotUUID (variable : string) (cause : error).

(** [cloudConfigFromEnv]; [getenv] is [os.Getenv], which returns the empty
    string for a variable that is not set. The configuration is returned
    as far as it was filled, with the error. *)
Definition cloudConfigFromEnv (getenv : string -> string)
    (opts : AutoscalingOptions) : upCloudConfig * option configError :=
  let cfg := {| ClusterID := getenv envUpCloudClusterID;
                Username := ""; Password := ""; UserAgent := "" |} in
  if String.eqb (ClusterID cfg) "" then
    (cfg, Some (ErrEnvNotSet envUpCloudClusterID))
  else
    let cfg := {| ClusterID := ClusterID cfg;
                  Username := getenv envUpCloudUsername;
                  Password := Password cfg; UserAgent := UserAgent cfg |} in
    if String.eqb (Username cfg) "" then
      (cfg, Some (ErrEnvNotSet envUpCloudUsername))
    else
      let cfg := {| ClusterID := ClusterID cfg; Username := Username cfg;
                    Password := getenv envUpCloudPassword;
                    UserAgent := UserAgent cfg |} in
      if String.eqb (Password cfg) "" then
        (cfg, Some (ErrEnvNotSet envUpCloudPassword))
      else
        let cfg :=
          if negb (String.eqb (OptionsUserAgent opts) "") then
            {| ClusterID := ClusterID cfg; Username := Username cfg;
               Password := Password cfg;
               UserAgent := OptionsUserAgent opts |}
          else cfg in
        (cfg, None).

Definition buildCloudConfig (getenv : string -> string)
    (opts : AutoscalingOptions) : upCloudConfig * option configError :=
  cloudConfigFromEnv getenv opts.

(** The client that [client.New] makes, with the user agent it starts
    with, [defaultUserAgent], which the vendored package sets. *)
Record Client : Type := {
  ClientUsername : string;
  ClientPassword : string;
  ClientUserAgent : string
}.

(** [newUpCloudService]; the service is the client it wraps. *)
Definition newUpCloudService (defaultUserAgent : string) (cfg : upCloudConfig)
  : option Client * option configError :=
  if String.eqb (Username cfg) "" || String.eqb (Password cfg) "" then
    (None, Some ErrCredentialsNotConfigured)
  else
    let upClient := {| ClientUsername := Username cfg;
                       ClientPassword := Password cfg;
                       ClientUserAgent := defaultUserAgent |} in
    let upClient :=
      if negb (String.eqb (UserAgent cfg) "") then
        {| ClientUsername := ClientUsername upClient;
           ClientPassword := ClientPassword upClient;
           ClientUserAgent := UserAgent cfg |}
      else upClient in
    (Some upClient, None).

(** [newManager] of the manager that reads the node group details.
    [uuidParse] is [uuid.Parse], whose result is held in its string form;
    the manager starts with no controller. *)
Definition newManager (getenv : string -> string)
    (uuidParse : string -> Result string)
  : option Manager * option configError :=
  let upCloudUsername := getenv envUpCloudUsername in
  if String.eqb upCloudUsername "" then
    (None, Some (ErrEnvNotSet envUpCloudUsername))
  else
    let upCloudPassword := getenv envUpCloudPassword in
    if String.eqb upCloudPassword "" then
      (None, Some (ErrEnvNotSet envUpCloudPassword))
    else
      let upCloudClusterID := getenv envUpCloudClusterID in
      if String.eqb upCloudClusterID "" then
        (None, Some (ErrEnvNotSet envUpCloudClusterID))
      else
        match uuidParse upCloudClusterID with
        | Err err => (None, Some (ErrNotUUID envUpCloudClusterID err))
        | Ok clusterID' =>
            (Some {| managerClusterID := clusterID'; nodeGroups := [] |},
             None)
        end.

(** ** The query filters (package [request]) *)

Module filter.

(** [FilterLabel] and [FilterLabelKey], the two implementations of the
    query filter. *)
Inductive QueryFilter : Type :=
| FilterLabel (l : upcloudapi.Label)
| FilterLabelKey (k : string).

(** [ToQueryParam]: "label=%s=%s" of the key and the value, and
    "label=%s" of the key. *)
Definition ToQueryParam (f : QueryFilter) : string :=
  match f with
  | FilterLabel l =>
      ("label=" ++ upcloudapi.Key l ++ "=" ++ upcloudapi.Value l)%string
  | FilterLabelKey k => ("label=" ++ k)%string
  end.

End filter.

(** Does the character [c] occur in [s]? *)
Fixpoint occurs (c : Ascii.ascii) (s : string) : bool :=
  match s with
  | EmptyString => false
  | String a rest => Ascii.eqb a c || occurs c rest
  end.

(** ** The nodes of a group, by the earlier manager *)

Module servergroups.

Record ServerGroup : Type := {
  Title : string;
  Members : list string
}.

Record ServerDetails : Type := {
  State : string
}.

Record GetServerGroupsRequest : Type := {
  Filters : list filter.QueryFilter
}.

Record GetServerDetailsRequest : Type := {
  UUID : string
}.

(** The two methods that the service interface of the earlier manager has
    in place of the deletion and the details of a node group. *)
Class upCloudService (E : Type) : Type := {
  GetServerGroups :
    GetServerGroupsRequest -> E -> Result (list ServerGroup) * E;
  GetServerDetails :
    GetServerDetailsRequest -> E -> Result ServerDetails * E
}.

(** The errors [nodeGroupNodes] returns: the error of [GetServerGroups] as
    it is, "got ambiguous server groups response, wanted 1 got %d", and
    "failed to get node details, %w". *)
Inductive nodesError : Type :=
| ErrServerGroups (cause : error)
| ErrAmbiguous (got : Z)
| ErrNodeDetails (cause : error).

Section Nodes.

Context {E : Type} `{Svc : upCloudService E}.

(** The loop over the members of the server group; [n] is the slice of
    instances under construction. *)
Fixpoint memberInstances (members : list string)
    (n : list cloudprovider.Instance) (e : E)
  : (list cloudprovider.Instance * option nodesError) * E :=
  match members with
  | [] => ((n, None), e)
  | serverID :: rest =>
      let '(res, e1) := GetServerDetails {| UUID := serverID |} e in
      match res with
      | Err err => ((n, Some (ErrNodeDetails err)), e1)
      | Ok srv =>
          memberInstances rest
            (n ++ [{| cloudprovider.Id := ("upcloud:////" ++ serverID)%string;
                      cloudprovider.Status :=
                        serverStateToInstanceStatus (State srv) |}])
            e1
      end
  end.

(** The request for the server group of a node group: the two label
    filters. *)
Definition serverGroupsRequest (cluster name' : string)
  : GetServerGroupsRequest :=
  {| Filters :=
       [filter.FilterLabel
          {| upcloudapi.Key := "capu_cluster_id";
             upcloudapi.Value := cluster |};
        filter.FilterLabel
          {| upcloudapi.Key := "capu_generated_name";
             upcloudapi.Value := (name' ++ "-server-group")%string |}] |}.

(** [nodeGroupNodes] of upcloud_manager.go. *)
Definition nodeGroupNodes (cluster name' : string) (e : E)
  : (list cloudprovider.Instance * option nodesError) * E :=
  let n : list cloudprovider.Instance := [] in
  let '(res, e1) := GetServerGroups (serverGroupsRequest cluster name') e in
  match res with
  | Err err => ((n, Some (ErrServerGroups err)), e1)
  | Ok serverGroups =>
      match serverGroups with
      | [serverGroup] => memberInstances (Members serverGroup) n e1
      | _ => ((n, Some (ErrAmbiguous (Z.of_nat (List.length serverGroups)))), e1)
      end
  end.

End Nodes.

End servergroups.

(** ** A scripted service

    An implementation of [upCloudService] that answers from a script, in
    the manner of a test double: it is the environment of the concrete
    runs below. Every call takes [latency] nanoseconds of the clock. *)

Module Mock.

Local Open Scope string_scope.

Record Env : Type := {
  clock : Z;
  latency : N;
  (** the answer of [GetKubernetesNodeGroups] *)
  listing : Result (list upcloud.KubernetesNodeGroup);
  (** the answers of the successive [GetKubernetesNodeGroup] calls, and
      the answer once the script is used up *)
  reads : list (Result upcloud.KubernetesNodeGroup);
  readDefault : Result upcloud.KubernetesNodeGroup;
  (** the answer of [ModifyKubernetesNodeGroup] *)
  modifyAnswer : Result upcloud.KubernetesNodeGroup;
  (** the node names whose deletion the service refuses *)
  refused : list string;
  (** the group names whose details can be read, with the details *)
  details : list (string * upcloud.KubernetesNodeGroupDetails)
}.

Definition tick (e : Env) : Env :=
  {| clock := clock e + Z.of_N (latency e); latency := latency e;
     listing := listing e; reads := reads e; readDefault := readDefault e;
     modifyAnswer := modifyAnswer e; refused := refused e;
     details := details e |}.

Definition popRead (e : Env) : Env :=
  {| clock := clock e; latency := latency e;
     listing := listing e; reads := tl (reads e);
     readDefault := readDefault e;
     modifyAnswer := modifyAnswer e; refused := refused e;
     details := details e |}.

Definition advance (d : Z) (e : Env) : Env :=
  {| clock := clock e + Z.max 0 d; latency := latency e;
     listing := listing e; reads := reads e; readDefault := readDefault e;
     modifyAnswer := modifyAnswer e; refused := refused e;
     details := details e |}.

Definition getGroups (_ : request.GetKubernetesNodeGroupsRequest) (e : Env) :=
  (listing e, tick e).

Definition getGroup (_ : request.GetKubernetesNodeGroupRequest) (e : Env) :=
  (match reads e with
   | [] => readDefault e
   | answer :: _ => answer
   end, tick (popRead e)).

Definition modifyGroup (_ : request.ModifyKubernetesNodeGroupRequest)
    (e : Env) :=
  (modifyAnswer e, tick e).

Definition deleteGroupNode (r : request.DeleteKubernetesNodeGroupNodeRequest)
    (e : Env) : option error * Env :=
  (if existsb (String.eqb (request.DeleteNodeName r)) (refused e)
   then Some (ErrRemote "node deletion refused")
   else None, tick e).

Fixpoint lookupDetails (name' : string)
    (ds : list (string * upcloud.KubernetesNodeGroupDetails))
  : Result upcloud.KubernetesNodeGroupDetails :=
  match ds with
  | [] => Err (ErrRemote "node group not found")
  | (n, d) :: rest =>
      if String.eqb n name' then Ok d else lookupDetails name' rest
  end.

Definition getGroupDetails (r : request.GetKubernetesNodeGroupRequest)
    (e : Env) :=
  (lookupDetails (request.GetName r) (details e), tick e).

Lemma advance_law (d : Z) (e : Env) : clock e + d <= clock (advance d e).
Proof. unfold advance; simpl; lia. Qed.

Lemma getGroup_law (r : request.GetKubernetesNodeGroupRequest) (e : Env) :
  clock e <= clock (snd (getGroup r e)).
Proof. unfold getGroup, tick, popRead; simpl; lia. Qed.

#[export] Instance service : upCloudService Env := {|
  GetKubernetesNodeGroups := getGroups;
  GetKubernetesNodeGroup := getGroup;
  ModifyKubernetesNodeGroup := modifyGroup;
  DeleteKubernetesNodeGroupNode := deleteGroupNode;
  GetKubernetesNodeGroupDetails := getGroupDetails;
  now := clock;
  sleep := advance;
  sleep_advances := advance_law;
  read_monotone := getGroup_law
|}.

Lemma states_distinct : NoDup ["running"; "terminating"; "pending"]%string.
Proof.
  repeat constructor; simpl; intuition discriminate.
Qed.

(** The values the state constants have in the vendored package. *)
#[export] Instance constants : upcloud.StateConstants := {|
  upcloud.KubernetesNodeGroupStateRunning := "running";
  upcloud.KubernetesNodeStateRunning := "running";
  upcloud.KubernetesNodeStateTerminating := "terminating";
  upcloud.KubernetesNodeStatePending := "pending";
  upcloud.node_states_distinct := states_distinct
|}.

Definition group (name' : string) (count : Z) (state : string)
  : upcloud.KubernetesNodeGroup :=
  {| upcloud.Name := name'; upcloud.Count := count;
     upcloud.State := state |}.

(** A service at time 0 whose calls take one millisecond, with nothing
    to list and every deletion accepted. *)
Definition script (reads' : list (Result upcloud.KubernetesNodeGroup))
    (readDefault' modifyAnswer' : Result upcloud.KubernetesNodeGroup)
  : Env :=
  {| clock := 0; latency := 1000000;
     listing := Ok []; reads := reads'; readDefault := readDefault';
     modifyAnswer := modifyAnswer'; refused := []; details := [] |}.

Definition start (e : Env) : World Env := {| env := e; log := [] |}.

(** A controller with the default bounds. *)
Definition controller (name' : string) (size' : Z) : upCloudNodeGroup :=
  {| clusterID := "0de1f2a3-0000-4000-8000-000000000001";
     name := name'; size := size';
     minSize := nodeGroupMinSize; maxSize := nodeGroupMaxSize;
     nodes := [] |}.

Definition node (name' : string) : Node :=
  {| ObjectMetaName := name';
     SpecProviderID := ("upcloud:////" ++ name')%string |}.

(** Three nodes of [group1]; the service refuses to delete the second.
    The first deletion is reported as in progress, then as done with two
    nodes left. *)
Definition threeNodes : list Node :=
  [node "group1-node-1"; node "group1-node-2"; node "group1-node-3"].

Definition refusing : Env :=
  {| clock := 0; latency := 1000000;
     listing := Ok [];
     reads := [Ok (group "group1" 3 "scaling-down");
               Ok (group "group1" 2 "running")];
     readDefault := Err (ErrRemote "no answer");
     modifyAnswer := Err (ErrRemote "no answer");
     refused := ["group1-node-2"]; details := [] |}.

(** A service that never reports [running]. *)
Definition stuck : Env :=
  script [] (Ok (group "group1" 1 "scaling-up"))
    (Ok (group "group1" 1 "scaling-up")).

(** A service that lists three groups and cannot read the details of
    the second. *)
Definition kubernetesNode (uuid state : string) : upcloud.KubernetesNode :=
  {| upcloud.UUID := uuid; upcloud.NodeName := uuid;
     upcloud.NodeState := state |}.

Definition groupDetails (name' : string) (count : Z)
    (nodes' : list upcloud.KubernetesNode)
  : string * upcloud.KubernetesNodeGroupDetails :=
  (name', {| upcloud.Group := group name' count "running";
             upcloud.Nodes := nodes' |}).

Definition listingThree : Env :=
  {| clock := 0; latency := 1000000;
     listing := Ok [group "group1" 2 "running"; group "group2" 1 "running";
                    group "group3" 1 "running"];
     reads := []; readDefault := Err (ErrRemote "no answer");
     modifyAnswer := Err (ErrRemote "no answer");
     refused := [];
     details :=
       [groupDetails "group1" 2
          [kubernetesNode "00000000-0000-4000-8000-000000000011" "running";
           kubernetesNode "00000000-0000-4000-8000-000000000012" "pending"];
        groupDetails "group3" 1
          [kubernetesNode "00000000-0000-4000-8000-000000000031" "failed"]] |}.

(** A service whose listing fails. *)
Definition unreachable : Env :=
  {| clock := 0; latency := 1000000;
     listing := Err (ErrRemote "connection refused");
     reads := []; readDefault := Err (ErrRemote "connection refused");
     modifyAnswer := Err (ErrRemote "connection refused");
     refused := []; details := [] |}.

Definition instance (id : string) : cloudprovider.Instance :=
  {| cloudprovider.Id := id;
     cloudprovider.Status :=
       {| cloudprovider.InstState := cloudprovider.InstanceRunning;
          cloudprovider.ErrorInfo := None |} |}.

Definition withNodes (u : upCloudNodeGroup)
    (nodes' : list cloudprovider.Instance) : upCloudNodeGroup :=
  {| clusterID := clusterID u; name := name u; size := size u;
     minSize := minSize u; maxSize := maxSize u; nodes := nodes' |}.

(** A manager that holds two controllers, with one instance each. *)
Definition twoGroups : Manager :=
  {| managerClusterID := "0de1f2a3-0000-4000-8000-000000000001";
     nodeGroups :=
       [withNodes (controller "group1" 1) [instance "upcloud:////node-a"];
        withNodes (controller "group2" 1) [instance "upcloud:////node-b"]] |}.

End Mock.

(** ** Further scenarios for the concrete runs *)

Module Scenario.

Local Open Scope string_scope.

(** An environment with the three variables set. *)
Definition getenv (variable : string) : string :=
  if String.eqb variable "UPCLOUD_USERNAME" then "autoscaler"
  else if String.eqb variable "UPCLOUD_PASSWORD" then "secret"
  else if String.eqb variable "UPCLOUD_CLUSTER_ID"
  then "0de1f2a3-0000-4000-8000-000000000001"
  else "".

(** A parser that takes every string of 36 characters for a UUID. *)
Definition uuidParse (s : string) : Result string :=
  if Nat.eqb (String.length s) 36 then Ok s
  else Err (ErrRemote "invalid UUID length").

(** The group of the package's template test: one label, one taint. *)
Definition shape : templateShape :=
  {| plan := {| upcloudapi.CoreNumber := 1;
                upcloudapi.MemoryAmount := 2048;
                upcloudapi.StorageSize := 30 |};
     taints := [{| upcloudapi.TaintEffect := "NoSchedule";
                   upcloudapi.TaintKey := "foo";
                   upcloudapi.TaintValue := "bar" |}];
     labels := [{| upcloudapi.Key := "test-label";
                   upcloudapi.Value := "old-value" |};
                {| upcloudapi.Key := "test-label";
                   upcloudapi.Value := "test-label-value" |}] |}.

(** A service of the earlier manager: the server group it returns and
    the states of the servers it knows. *)
Record Servers : Type := {
  serverGroups : Result (list servergroups.ServerGroup);
  known : list (string * string)
}.

Fixpoint serverState (serverID : string) (l : list (string * string))
  : Result servergroups.ServerDetails :=
  match l with
  | [] => Err (ErrRemote "server not found")
  | (id, state) :: rest =>
      if String.eqb id serverID then Ok {| servergroups.State := state |}
      else serverState serverID rest
  end.

#[export] Instance servers : servergroups.upCloudService Servers := {|
  servergroups.GetServerGroups := fun _ e => (serverGroups e, e);
  servergroups.GetServerDetails :=
    fun r e => (serverState (servergroups.UUID r) (known e), e)
|}.


End Scenario.

(** ** Vocabulary for the logs *)

(** A read of the group that succeeded and reported another state than the
    one waited for. *)
Definition otherState (req : request.GetKubernetesNodeGroupRequest)
    (state : upcloud.KubernetesNodeGroupState) (ev : Event) : Prop :=
  exists g, ev = EvGetKubernetesNodeGroup req (Ok g) /\ upcloud.State g <> state.

(** What one wait leaves in the log, with its result: reads of the group
    that reported another state, closed by nothing (the deadline passed),
    by a read that failed, or by the read that reported [state]. *)
Inductive Polled (req : request.GetKubernetesNodeGroupRequest) (id : string)
    (state : upcloud.KubernetesNodeGroupState)
  : list Event -> Result upcloud.KubernetesNodeGroup -> Prop :=
| PolledTimedOut (i : Z) :
    Polled req id state [] (Err (ErrTimedOut id i))
| PolledFailed (err : error) :
    Polled req id state [EvGetKubernetesNodeGroup req (Err err)]
      (Err (ErrFetch id err))
| PolledReached (g : upcloud.KubernetesNodeGroup) :
    upcloud.State g = state ->
    Polled req id state [EvGetKubernetesNodeGroup req (Ok g)] (Ok g)
| PolledAgain (g : upcloud.KubernetesNodeGroup) (evs : list Event)
    (res : Result upcloud.KubernetesNodeGroup) :
    upcloud.State g <> state ->
    Polled req id state evs res ->
    Polled req id state (EvGetKubernetesNodeGroup req (Ok g) :: evs) res.

(** The node names of the deletions a log holds, in order, each with the
    outcome of the call. *)
Fixpoint deletions (evs : list Event) : list (string * option error) :=
  match evs with
  | [] => []
  | EvDeleteKubernetesNodeGroupNode r res :: rest =>
      (request.DeleteNodeName r, res) :: deletions rest
  | _ :: rest => deletions rest
  end.

(** Is the event a call that changes the remote group other than by
    deleting a node? *)
Definition isModify (ev : Event) : bool :=
  match ev with
  | EvModifyKubernetesNodeGroup _ _ => true
  | _ => false
  end.

(** The size invariant of the data model. *)
Definition sizeInBounds (u : upCloudNodeGroup) : Prop :=
  minSize u <= size u <= maxSize u.

(** The counts that the successful reads of a log reported for [state]. *)
Definition reportedInBounds (state : upcloud.KubernetesNodeGroupState)
    (lo hi : Z) (evs : list Event) : Prop :=
  forall r g, In (EvGetKubernetesNodeGroup r (Ok g)) evs ->
    upcloud.State g = state -> lo <= upcloud.Count g <= hi.

(** The three operations that change a controller. *)
Inductive Mutation : Type :=
| MIncreaseSize (delta : Z)
| MDecreaseTargetSize (delta : Z)
| MDeleteNodes (nodes' : list Node).

Definition mutate {E : Type} `{upCloudService E} `{upcloud.StateConstants}
    (op : Mutation) (u : upCloudNodeGroup) (w : World E)
  : option error * upCloudNodeGroup * World E :=
  match op with
  | MIncreaseSize delta => IncreaseSize delta u w
  | MDecreaseTargetSize delta => DecreaseTargetSize delta u w
  | MDeleteNodes nodes' => DeleteNodes nodes' u w
  end.

(** The deletions of [nodes'], each accepted, as [deletions] lists them. *)
Definition accepted (nodes' : list Node) : list (string * option error) :=
  map (fun n => (GetName n, @None error)) nodes'.

(** What the loop of [Refresh] makes of the listed groups, from the world
    [w] on: a group whose details cannot be read is passed over; a group
    whose details are read becomes a controller with the listed name and
    count, the default bounds and the instances of the nodes just read. *)
Inductive Cached {E : Type} `{upCloudService E} `{upcloud.StateConstants}
    (cluster : string)
  : list upcloud.KubernetesNodeGroup -> World E ->
    list upCloudNodeGroup -> World E -> Prop :=
| CachedDone (w : World E) : Cached cluster [] w [] w
| CachedSkip g rest (w w1 : World E) err groups w' :
    callGetKubernetesNodeGroupDetails
      {| request.GetClusterUUID := cluster;
         request.GetName := upcloud.Name g |} w = (Err err, w1) ->
    Cached cluster rest w1 groups w' ->
    Cached cluster (g :: rest) w groups w'
| CachedKeep g rest (w w1 : World E) ng groups w' :
    callGetKubernetesNodeGroupDetails
      {| request.GetClusterUUID := cluster;
         request.GetName := upcloud.Name g |} w = (Ok ng, w1) ->
    Cached cluster rest w1 groups w' ->
    Cached cluster (g :: rest) w
      ({| clusterID := cluster;
          name := upcloud.Name g;
          size := upcloud.Count g;
          minSize := nodeGroupMinSize;
          maxSize := nodeGroupMaxSize;
          nodes := map instanceOfNode (upcloud.Nodes ng) |} :: groups) w'.

(** The reads of node group details that a log holds, in order, each as
    its request and its outcome. *)
Fixpoint detailsReads (evs : list Event)
  : list (request.GetKubernetesNodeGroupRequest *
          Result upcloud.KubernetesNodeGroupDetails) :=
  match evs with
  | [] => []
  | EvGetKubernetesNodeGroupDetails r res :: rest =>
      (r, res) :: detailsReads rest
  | _ :: rest => detailsReads rest
  end.

Definition isDetails (ev : Event) : bool :=
  match ev with
  | EvGetKubernetesNodeGroupDetails _ _ => true
  | _ => false
  end.

(** The request for the details of a listed group. *)
Definition detailsRequest (cluster : string) (g : upcloud.KubernetesNodeGroup)
  : request.GetKubernetesNodeGroupRequest :=
  {| request.GetClusterUUID := cluster;
     request.GetName := upcloud.Name g |}.

(** The controllers that the listed groups and the outcomes of the reads
    of their details give: one for every group whose read succeeded. *)
Fixpoint controllersOf {Consts : upcloud.StateConstants} (cluster : string)
    (gs : list upcloud.KubernetesNodeGroup)
    (outcomes : list (Result upcloud.KubernetesNodeGroupDetails))
  : list upCloudNodeGroup :=
  match gs, outcomes with
  | g :: gs', Ok ng :: outcomes' =>
      {| clusterID := cluster;
         name := upcloud.Name g;
         size := upcloud.Count g;
         minSize := nodeGroupMinSize;
         maxSize := nodeGroupMaxSize;
         nodes := map instanceOfNode (upcloud.Nodes ng) |}
      :: controllersOf cluster gs' outcomes'
  | _ :: gs', Err _ :: outcomes' => controllersOf cluster gs' outcomes'
  | _, _ => []
  end.


(** The key a query filter is about. *)
Definition filterKey (f : filter.QueryFilter) : string :=
  match f with
  | filter.FilterLabel l => upcloudapi.Key l
  | filter.FilterLabelKey k => k
  end.


(** The first of the variables that is empty or not set. *)
Definition firstMissing (getenv : string -> string) (variables : list string)
  : option string :=
  find (fun variable => String.eqb (getenv variable) "") variables.

(** * Properties *)

(** ** Go integers *)

Lemma wrap_in_range (z : Z) : Go.in_range z -> Go.wrap z = z.
Proof.
  unfold Go.in_range, Go.wrap, Go.min_int, Go.max_int, Go.int_bits.
  intros H. rewrite Z.mod_small; lia.
Qed.

Lemma pollInterval_pos : 0 < pollInterval.
Proof. reflexivity. Qed.

(** ** The wait loop *)

Section WaitLoop.

Context {E : Type} `{Svc : upCloudService E}.

Lemma turns_enough (deadline t : Z) :
  deadline - t <= Z.of_nat (turns deadline t) * pollInterval.
Proof.
  unfold turns.
  pose proof pollInterval_pos as Hp.
  set (d := deadline - t).
  pose proof (Z.div_mod (d + pollInterval - 1) pollInterval) as Hdiv.
  pose proof (Z.mod_pos_bound (d + pollInterval - 1) pollInterval Hp) as Hmod.
  set (q := (d + pollInterval - 1) / pollInterval) in *.
  destruct (Z_lt_le_dec q 0) as [Hneg | Hpos].
  - replace (Z.to_nat q) with 0%nat by lia. nia.
  - rewrite Z2Nat.id by assumption. nia.
Qed.

(** A poll that is followed by the pause leaves one interval less. *)
Lemma after_pause (r : request.GetKubernetesNodeGroupRequest) (w : World E) :
  timeNow w + pollInterval <=
  timeNow (timeSleep pollInterval (snd (callGetKubernetesNodeGroup r w))).
Proof.
  unfold timeNow, timeSleep, callGetKubernetesNodeGroup.
  pose proof (read_monotone r (env w)) as Hr.
  destruct (GetKubernetesNodeGroup r (env w)) as [res e'] eqn:Hcall.
  simpl in *.
  pose proof (sleep_advances pollInterval e'). lia.
Qed.

(** Fuel beyond what the time to the deadline needs changes nothing. *)
Lemma waitLoop_fuel (f1 : nat) : forall (f2 : nat) u state deadline i w,
  deadline - timeNow w <= Z.of_nat f1 * pollInterval ->
  deadline - timeNow w <= Z.of_nat f2 * pollInterval ->
  waitLoop f1 u state deadline i w = waitLoop f2 u state deadline i w.
Proof.
  induction f1 as [|f1 IH]; intros f2 u state deadline i w H1 H2.
  - destruct f2 as [|f2]; [reflexivity|].
    simpl. replace (timeNow w <? deadline) with false; [reflexivity|].
    symmetry. apply Z.ltb_ge. simpl in H1. lia.
  - destruct f2 as [|f2].
    + simpl. replace (timeNow w <? deadline) with false; [reflexivity|].
      symmetry. apply Z.ltb_ge. simpl in H2. lia.
    + simpl. destruct (timeNow w <? deadline); [|reflexivity].
      pose proof (after_pause (groupRequest u) w) as Hp.
      destruct (callGetKubernetesNodeGroup (groupRequest u) w) as [res w1].
      simpl in Hp.
      destruct res as [g|err]; [|reflexivity].
      destruct (String.eqb (upcloud.State g) state); [reflexivity|].
      apply IH; lia.
Qed.

(** The loop of the source: while the deadline is ahead, read the group;
    a failed read ends the wait with its error, a read that reports
    [state] ends it with the group, any other read is followed by the
    pause and the next turn; past the deadline the wait has timed out. *)
Lemma waitFrom_eq u state deadline i (w : World E) :
  waitFrom u state deadline i w =
  if timeNow w <? deadline then
    let '(res, w1) := callGetKubernetesNodeGroup (groupRequest u) w in
    match res with
    | Err err => (Err (ErrFetch (Id u) err), w1)
    | Ok g =>
        if String.eqb (upcloud.State g) state then (Ok g, w1)
        else waitFrom u state deadline (Go.add i 1)
               (timeSleep pollInterval w1)
    end
  else (Err (ErrTimedOut (Id u) i), w).
Proof.
  unfold waitFrom.
  pose proof (turns_enough deadline (timeNow w)) as Hfuel.
  destruct (turns deadline (timeNow w)) as [|f] eqn:Hf.
  - simpl. replace (timeNow w <? deadline) with false; [reflexivity|].
    symmetry. apply Z.ltb_ge. simpl in Hfuel. lia.
  - simpl. destruct (timeNow w <? deadline); [|reflexivity].
    pose proof (after_pause (groupRequest u) w) as Hp.
    destruct (callGetKubernetesNodeGroup (groupRequest u) w) as [res w1].
    simpl in Hp.
    destruct res as [g|err]; [|reflexivity].
    destruct (String.eqb (upcloud.State g) state); [reflexivity|].
    apply waitLoop_fuel; [lia|apply turns_enough].
Qed.

(** What the loop appends to the log, whatever the fuel. *)
Lemma waitLoop_polled (fuel : nat) : forall u state deadline i (w : World E),
  exists evs,
    log (snd (waitLoop fuel u state deadline i w)) = log w ++ evs /\
    Polled (groupRequest u) (Id u) state evs
      (fst (waitLoop fuel u state deadline i w)).
Proof.
  induction fuel as [|fuel IH]; intros u state deadline i w.
  - exists []. simpl. rewrite app_nil_r. split; [reflexivity|constructor].
  - simpl. destruct (timeNow w <? deadline).
    + unfold callGetKubernetesNodeGroup.
      destruct (GetKubernetesNodeGroup (groupRequest u) (env w)) as [res e'].
      destruct res as [g|err].
      * destruct (String.eqb (upcloud.State g) state) eqn:Hst.
        -- exists [EvGetKubernetesNodeGroup (groupRequest u) (Ok g)].
           simpl. split; [reflexivity|].
           constructor. now apply String.eqb_eq.
        -- specialize (IH u state deadline (Go.add i 1)
             (timeSleep pollInterval
                (record w e' (EvGetKubernetesNodeGroup (groupRequest u) (Ok g))))).
           destruct IH as [evs [Hlog Hp]].
           exists (EvGetKubernetesNodeGroup (groupRequest u) (Ok g) :: evs).
           split.
           ++ rewrite Hlog. simpl. now rewrite <- app_assoc.
           ++ constructor; [now apply String.eqb_neq|assumption].
      * exists [EvGetKubernetesNodeGroup (groupRequest u) (Err err)].
        simpl. split; [reflexivity|constructor].
    + exists []. simpl. rewrite app_nil_r. split; [reflexivity|constructor].
Qed.

Lemma waitNodeGroupState_polled u state timeout (w : World E) :
  exists evs,
    log (snd (waitNodeGroupState u state timeout w)) = log w ++ evs /\
    Polled (groupRequest u) (Id u) state evs
      (fst (waitNodeGroupState u state timeout w)).
Proof. unfold waitNodeGroupState, waitFrom. apply waitLoop_polled. Qed.

End WaitLoop.

(** ** What a wait leaves in the log *)

Section PolledFacts.

Variable req : request.GetKubernetesNodeGroupRequest.
Variable id : string.
Variable state : upcloud.KubernetesNodeGroupState.

Lemma Polled_failed_last evs res :
  Polled req id state evs res ->
  forall r err, In (EvGetKubernetesNodeGroup r (Err err)) evs ->
    res = Err (ErrFetch id err) /\
    exists evs0,
      evs = evs0 ++ [EvGetKubernetesNodeGroup r (Err err)] /\
      Forall (otherState req state) evs0.
Proof.
  induction 1 as [i|err0|g Hg|g evs res Hg Hp IH]; intros r err Hin.
  - destruct Hin.
  - destruct Hin as [Heq|[]]. inversion Heq; subst.
    split; [reflexivity|]. exists []. split; [reflexivity|constructor].
  - destruct Hin as [Heq|[]]. discriminate Heq.
  - destruct Hin as [Heq|Hin]; [discriminate Heq|].
    destruct (IH r err Hin) as [Hres [evs0 [Hevs Hall]]].
    split; [assumption|].
    exists (EvGetKubernetesNodeGroup req (Ok g) :: evs0). split.
    + simpl. now rewrite Hevs.
    + constructor; [|assumption]. exists g. now split.
Qed.

Lemma Polled_only_other evs res :
  Polled req id state evs res ->
  Forall (otherState req state) evs ->
  exists i, res = Err (ErrTimedOut id i).
Proof.
  induction 1 as [i|err0|g Hg|g evs res Hg Hp IH]; intros Hall.
  - now exists i.
  - inversion Hall as [|? ? [g [Heq _]] _]; subst. discriminate Heq.
  - inversion Hall as [|? ? [g' [Heq Hne]] _]; subst.
    inversion Heq; subst. contradiction.
  - inversion Hall; subst. now apply IH.
Qed.

Lemma Polled_reached evs g :
  Polled req id state evs (Ok g) ->
  upcloud.State g = state /\
  exists evs0,
    evs = evs0 ++ [EvGetKubernetesNodeGroup req (Ok g)] /\
    Forall (otherState req state) evs0.
Proof.
  remember (Ok g) as res eqn:Hres.
  induction 1 as [i|err0|g0 Hg|g0 evs res Hg Hp IH]; try discriminate Hres.
  - inversion Hres; subst. split; [reflexivity|].
    exists []. split; [reflexivity|constructor].
  - destruct (IH Hres) as [Hst [evs0 [Hevs Hall]]].
    split; [assumption|].
    exists (EvGetKubernetesNodeGroup req (Ok g0) :: evs0). split.
    + simpl. now rewrite Hevs.
    + constructor; [|assumption]. exists g0. now split.
Qed.

Lemma Polled_deletions evs res :
  Polled req id state evs res -> deletions evs = [].
Proof. induction 1; simpl; auto. Qed.

Lemma Polled_no_modify evs res :
  Polled req id state evs res -> existsb isModify evs = false.
Proof. induction 1; simpl; auto. Qed.

Lemma Polled_reads evs res :
  Polled req id state evs res ->
  forall r g, In (EvGetKubernetesNodeGroup r (Ok g)) evs -> r = req.
Proof.
  induction 1 as [i|err0|g0 Hg|g0 evs res Hg Hp IH]; intros r g Hin.
  - destruct Hin.
  - destruct Hin as [Heq|[]]. discriminate Heq.
  - destruct Hin as [Heq|[]]. now inversion Heq.
  - destruct Hin as [Heq|Hin]; [now inversion Heq|]. eapply IH; eassumption.
Qed.

End PolledFacts.

Lemma deletions_app evs1 evs2 :
  deletions (evs1 ++ evs2) = deletions evs1 ++ deletions evs2.
Proof.
  induction evs1 as [|ev evs1 IH]; simpl; [reflexivity|].
  destruct ev; simpl; now rewrite ?IH.
Qed.

Section WaitDeadline.

Context {E : Type} `{Svc : upCloudService E}.

(** With fuel for the time that is left, the loop reports a timeout only
    once the deadline has passed. *)
Lemma waitLoop_timeout_late (fuel : nat) :
  forall u state deadline i (w : World E) id' i',
    deadline - timeNow w <= Z.of_nat fuel * pollInterval ->
    fst (waitLoop fuel u state deadline i w) = Err (ErrTimedOut id' i') ->
    deadline <= timeNow (snd (waitLoop fuel u state deadline i w)).
Proof.
  induction fuel as [|fuel IH]; intros u state deadline i w id' i' Hfuel Hres.
  - cbn [waitLoop fst snd] in *. lia.
  - cbn [waitLoop] in *. destruct (timeNow w <? deadline) eqn:Hlt.
    + pose proof (after_pause (groupRequest u) w) as Hp.
      destruct (callGetKubernetesNodeGroup (groupRequest u) w) as [res w1].
      cbn [snd] in Hp.
      destruct res as [g|err]; [|discriminate Hres].
      destruct (String.eqb (upcloud.State g) state); [discriminate Hres|].
      eapply IH; [lia|eassumption].
    + cbn [snd]. apply Z.ltb_ge in Hlt. assumption.
Qed.

Lemma waitNodeGroupState_timeout_late u state timeout (w : World E) id' i' :
  fst (waitNodeGroupState u state timeout w) = Err (ErrTimedOut id' i') ->
  timeNow w + timeout <= timeNow (snd (waitNodeGroupState u state timeout w)).
Proof.
  unfold waitNodeGroupState, waitFrom.
  apply waitLoop_timeout_late, turns_enough.
Qed.

End WaitDeadline.

(** ** The controller *)

Lemma set_size_same (u : upCloudNodeGroup) : set_size u (size u) = u.
Proof. now destruct u. Qed.

Section ControllerFacts.

Context {E : Type} `{Svc : upCloudService E}.
Context `{Consts : upcloud.StateConstants}.

Let Running := upcloud.KubernetesNodeGroupStateRunning.

(** [deleteNode] is one remote call. *)
Lemma deleteNode_log u nodeName (w : World E) :
  log (snd (deleteNode u nodeName w)) =
  log w ++ [EvDeleteKubernetesNodeGroupNode (deleteRequest u nodeName)
              (fst (deleteNode u nodeName w))].
Proof.
  unfold deleteNode, callDeleteKubernetesNodeGroupNode, deleteRequest.
  now destruct (DeleteKubernetesNodeGroupNode _ (env w)).
Qed.

(** A wait that succeeds ends with the read that reported the state. *)
Lemma waitNodeGroupState_ok u state timeout (w w' : World E) g :
  waitNodeGroupState u state timeout w = (Ok g, w') ->
  upcloud.State g = state /\
  exists polls,
    log w' = log w ++ polls ++ [EvGetKubernetesNodeGroup (groupRequest u) (Ok g)] /\
    Forall (otherState (groupRequest u) state) polls.
Proof.
  intros Hw.
  destruct (waitNodeGroupState_polled u state timeout w) as [evs [Hlog Hp]].
  rewrite Hw in Hlog, Hp. simpl in Hlog, Hp.
  destruct (Polled_reached Hp) as [Hst [polls [Hevs Hall]]].
  split; [assumption|]. exists polls. split; [|assumption].
  now rewrite Hlog, Hevs.
Qed.

(** A successful [scaleNodeGroup]: the modify request, the polls, the
    read that reported [Running], whose count is the new cached size. *)
Lemma scaleNodeGroup_ok size' u (w : World E) u' w' :
  scaleNodeGroup size' u w = (None, u', w') ->
  exists m polls g,
    log w' = log w ++
      EvModifyKubernetesNodeGroup (modifyRequest u size') (Ok m) ::
      polls ++ [EvGetKubernetesNodeGroup (groupRequest u) (Ok g)] /\
    Forall (otherState (groupRequest u) Running) polls /\
    upcloud.State g = Running /\
    u' = set_size u (upcloud.Count g).
Proof.
  unfold scaleNodeGroup, callModifyKubernetesNodeGroup. fold (modifyRequest u size').
  destruct (ModifyKubernetesNodeGroup (modifyRequest u size') (env w))
    as [[m|err] e1]; [|discriminate].
  destruct (waitNodeGroupState u upcloud.KubernetesNodeGroupStateRunning
              timeoutWaitNodeGroupState _) as [[g|err] w2] eqn:Hw;
    [|discriminate].
  intros Heq. inversion Heq; subst.
  destruct (waitNodeGroupState_ok _ _ _ _ Hw) as [Hst [polls [Hlog Hall]]].
  exists m, polls, g. repeat split; try assumption.
  rewrite Hlog. simpl. now rewrite <- app_assoc.
Qed.

(** A failed [scaleNodeGroup] leaves the controller as it was. *)
Lemma scaleNodeGroup_failed size' u (w : World E) err u' w' :
  scaleNodeGroup size' u w = (Some err, u', w') -> u' = u.
Proof.
  unfold scaleNodeGroup.
  destruct (callModifyKubernetesNodeGroup _ w) as [[m|err0] w1].
  - destruct (waitNodeGroupState u _ _ w1) as [[g|err1] w2];
      intros Heq; inversion Heq; reflexivity.
  - intros Heq; inversion Heq; reflexivity.
Qed.

(** The loop over the nodes splits at any point. *)
Lemma DeleteNodes_app (pre post : list Node) : forall u (w : World E),
  DeleteNodes (pre ++ post) u w =
  match DeleteNodes pre u w with
  | (Some err, u1, w1) => (Some err, u1, w1)
  | (None, u1, w1) => DeleteNodes post u1 w1
  end.
Proof.
  induction pre as [|n pre IH]; intros u w; simpl.
  - reflexivity.
  - destruct (deleteNode u (GetName n) w) as [[err|] w1]; [reflexivity|].
    destruct (waitNodeGroupState u _ _ w1) as [[g|err] w2]; [|reflexivity].
    apply IH.
Qed.

(** One node: the deletion, the wait, the size. *)
Lemma DeleteNodes_one (n : Node) u (w : World E) :
  DeleteNodes [n] u w =
  match deleteNode u (GetName n) w with
  | (Some err, w1) => (Some err, u, w1)
  | (None, w1) =>
      match waitNodeGroupState u Running timeoutWaitNodeGroupState w1 with
      | (Err err, w2) => (Some err, u, w2)
      | (Ok g, w2) => (None, set_size u (upcloud.Count g), w2)
      end
  end.
Proof.
  simpl. destruct (deleteNode u (GetName n) w) as [[err|] w1]; [reflexivity|].
  subst Running.
  now destruct (waitNodeGroupState u _ _ w1) as [[g|err] w2].
Qed.

(** What a run over [nodes'] that succeeds has done. *)
Lemma DeleteNodes_ok (nodes' : list Node) : forall u (w : World E) u' w',
  DeleteNodes nodes' u w = (None, u', w') ->
  exists evs,
    log w' = log w ++ evs /\
    deletions evs = accepted nodes' /\
    existsb isModify evs = false /\
    (forall r g, In (EvGetKubernetesNodeGroup r (Ok g)) evs ->
       r = groupRequest u) /\
    (nodes' = [] -> u' = u /\ evs = []) /\
    (nodes' <> [] ->
     exists evs0 g,
       evs = evs0 ++ [EvGetKubernetesNodeGroup (groupRequest u) (Ok g)] /\
       upcloud.State g = Running /\
       u' = set_size u (upcloud.Count g)).
Proof.
  induction nodes' as [|n pre IH] using rev_ind; intros u w u' w' Hrun.
  - simpl in Hrun. inversion Hrun; subst. exists [].
    rewrite app_nil_r. repeat split; try reflexivity.
    + intros r g [].
    + intros Hne. now contradiction Hne.
  - rewrite DeleteNodes_app in Hrun.
    destruct (DeleteNodes pre u w) as [[[err|] u1] w1] eqn:Hpre;
      [discriminate|].
    destruct (IH _ _ _ _ Hpre) as [evs1 [Hlog1 [Hdel1 [Hmod1 [Hreq1 [Hnil Hcons]]]]]].
    assert (Hu1 : u1 = set_size u (size u1)).
    { destruct pre as [|p pre'].
      - destruct (Hnil eq_refl) as [-> _]. now rewrite set_size_same.
      - destruct Hcons as [evs0 [g [_ [_ ->]]]]; [discriminate|reflexivity]. }
    rewrite DeleteNodes_one in Hrun.
    pose proof (deleteNode_log u1 (GetName n) w1) as Hdl.
    destruct (deleteNode u1 (GetName n) w1) as [[err|] w2]; [discriminate|].
    simpl in Hdl.
    destruct (waitNodeGroupState u1 Running timeoutWaitNodeGroupState w2)
      as [[g|err] w3] eqn:Hw; [|discriminate].
    inversion Hrun; subst u' w'.
    destruct (waitNodeGroupState_polled u1 Running timeoutWaitNodeGroupState w2)
      as [polls [Hlog3 Hp]].
    rewrite Hw in Hlog3, Hp. simpl in Hlog3, Hp.
    assert (Hreq : groupRequest u1 = groupRequest u) by now rewrite Hu1.
    assert (Hdreq : deleteRequest u1 (GetName n) = deleteRequest u (GetName n))
      by now rewrite Hu1.
    rewrite Hreq in Hp. rewrite Hdreq in Hdl.
    destruct (Polled_reached Hp) as [Hst [polls0 [Hpolls Hall]]].
    exists (evs1 ++
            EvDeleteKubernetesNodeGroupNode (deleteRequest u (GetName n)) None ::
            polls).
    split; [|split; [|split; [|split; [|split]]]].
    + rewrite Hlog3, Hdl, Hlog1. now rewrite <- !app_assoc.
    + rewrite deletions_app, Hdel1. simpl.
      rewrite (Polled_deletions Hp). unfold accepted.
      now rewrite map_app.
    + rewrite existsb_app, Hmod1. simpl. apply (Polled_no_modify Hp).
    + intros r g' Hin. apply in_app_or in Hin. destruct Hin as [Hin|Hin].
      * eapply Hreq1; eassumption.
      * destruct Hin as [Heq|Hin]; [discriminate Heq|].
        eapply Polled_reads; eassumption.
    + intros Habs. now destruct pre.
    + intros _.
      exists (evs1 ++
              EvDeleteKubernetesNodeGroupNode (deleteRequest u (GetName n)) None ::
              polls0), g.
      split; [|split].
      * rewrite Hpolls. rewrite <- app_assoc. reflexivity.
      * assumption.
      * rewrite Hu1. reflexivity.
Qed.

End ControllerFacts.

(** ** The claims about the controller *)

Section ControllerClaims.

Context {E : Type} `{Svc : upCloudService E}.
Context `{Consts : upcloud.StateConstants}.

Let Running := upcloud.KubernetesNodeGroupStateRunning.

(** C1. [DeleteNodes] takes the nodes one at a time, in the order given.
    Let the first k-1 nodes [pre] have been deleted with success, leaving
    the controller [u1] and the world [w1]. Then (1) the log holds their
    deletions, one per node and in input order, each accepted, no modify
    request (nothing is undone), and, when [pre] is not empty, it ends
    with the read that reported [Running], whose count is the cached
    size of [u1]; (2) the k-th node [n] is handled by one delete call,
    then the wait for [Running], then the write of the reported count to
    the cached size, then the nodes after it; when the delete call or
    the wait fails, [DeleteNodes] returns that error at once, with the
    controller [u1]. *)
Theorem DeleteNodes_one_at_a_time
    (pre : list Node) (n : Node) (post : list Node)
    (u : upCloudNodeGroup) (w : World E) (u1 : upCloudNodeGroup)
    (w1 : World E) :
  DeleteNodes pre u w = (None, u1, w1) ->
  (exists evs,
     log w1 = log w ++ evs /\
     deletions evs = accepted pre /\
     existsb isModify evs = false /\
     (pre = [] -> u1 = u /\ evs = []) /\
     (pre <> [] ->
      exists evs0 g,
        evs = evs0 ++ [EvGetKubernetesNodeGroup (groupRequest u) (Ok g)] /\
        upcloud.State g = Running /\
        u1 = set_size u (upcloud.Count g))) /\
  log (snd (deleteNode u1 (GetName n) w1)) =
    log w1 ++ [EvDeleteKubernetesNodeGroupNode
                 (deleteRequest u (GetName n))
                 (fst (deleteNode u1 (GetName n) w1))] /\
  DeleteNodes (pre ++ n :: post) u w =
    match deleteNode u1 (GetName n) w1 with
    | (Some err, w2) => (Some err, u1, w2)
    | (None, w2) =>
        match waitNodeGroupState u1 Running timeoutWaitNodeGroupState w2 with
        | (Err err, w3) => (Some err, u1, w3)
        | (Ok g, w3) => DeleteNodes post (set_size u1 (upcloud.Count g)) w3
        end
    end.
Proof.
  intros Hpre.
  destruct (DeleteNodes_ok _ _ _ Hpre)
    as [evs [Hlog [Hdel [Hmod [_ [Hnil Hcons]]]]]].
  assert (Hu1 : u1 = set_size u (size u1)).
  { destruct pre as [|p pre'].
    - destruct (Hnil eq_refl) as [-> _]. now rewrite set_size_same.
    - destruct Hcons as [evs0 [g [_ [_ ->]]]]; [discriminate|reflexivity]. }
  split; [|split].
  - exists evs. repeat split; try assumption; now apply Hnil.
  - rewrite deleteNode_log. now rewrite Hu1.
  - rewrite DeleteNodes_app, Hpre. reflexivity.
Qed.

(** C10. [DeleteNodes] of no node returns nil and leaves the controller,
    with its cached size and instances, and the world, with its log of
    remote calls, as they were. *)
Theorem DeleteNodes_empty (u : upCloudNodeGroup) (w : World E) :
  DeleteNodes [] u w = (None, u, w).
Proof. reflexivity. Qed.

(** What a mutation that succeeds has written to the cached size. *)
Lemma mutate_ok (op : Mutation) (u : upCloudNodeGroup) (w : World E) u' w' :
  mutate op u w = (None, u', w') ->
  exists evs,
    log w' = log w ++ evs /\
    (u' = u \/
     exists r g,
       In (EvGetKubernetesNodeGroup r (Ok g)) evs /\
       upcloud.State g = Running /\
       u' = set_size u (upcloud.Count g)).
Proof.
  assert (Hscale : forall size',
    scaleNodeGroup size' u w = (None, u', w') ->
    exists evs,
      log w' = log w ++ evs /\
      (u' = u \/
       exists r g,
         In (EvGetKubernetesNodeGroup r (Ok g)) evs /\
         upcloud.State g = Running /\
         u' = set_size u (upcloud.Count g))).
  { intros size' Hs.
    destruct (scaleNodeGroup_ok _ _ _ Hs) as [m [polls [g [Hlog [_ [Hst Hu]]]]]].
    eexists. split; [exact Hlog|]. right. exists (groupRequest u), g.
    split; [|now split].
    right. apply in_or_app. right. now left. }
  destruct op as [delta|delta|nodes']; simpl.
  - unfold IncreaseSize. destruct (delta <=? 0); [discriminate|].
    destruct (_ >? _); [discriminate|]. apply Hscale.
  - unfold DecreaseTargetSize. destruct (delta >=? 0); [discriminate|].
    destruct (_ <? _); [discriminate|]. apply Hscale.
  - intros Hd.
    destruct (DeleteNodes_ok _ _ _ Hd) as [evs [Hlog [_ [_ [_ [Hnil Hcons]]]]]].
    exists evs. split; [assumption|].
    destruct nodes' as [|n rest].
    + left. now apply Hnil.
    + right. destruct Hcons as [evs0 [g [Hevs [Hst Hu]]]]; [discriminate|].
      exists (groupRequest u), g. split; [|now split].
      rewrite Hevs. apply in_or_app. right. now left.
Qed.

(** C2, as the code has it. After a mutation that succeeds, the bounds
    are the ones before, and the cached size is within them whenever the
    counts that the remote reported for [Running] during the operation
    are: the size written back is the reported count, which the code
    does not compare with the bounds. *)
Theorem size_bounds_follow_remote
    (op : Mutation) (u : upCloudNodeGroup) (w : World E)
    (u' : upCloudNodeGroup) (w' : World E) :
  sizeInBounds u ->
  mutate op u w = (None, u', w') ->
  exists evs,
    log w' = log w ++ evs /\
    minSize u' = minSize u /\ maxSize u' = maxSize u /\
    (reportedInBounds Running (minSize u) (maxSize u) evs ->
     sizeInBounds u').
Proof.
  intros Hinv Hrun.
  destruct (mutate_ok _ _ _ Hrun) as [evs [Hlog [->|[r [g [Hin [Hst ->]]]]]]].
  - exists evs. repeat split; try assumption; apply Hinv.
  - exists evs. split; [assumption|]. split; [reflexivity|].
    split; [reflexivity|]. intros Hrep. unfold sizeInBounds. simpl.
    eapply Hrep; eassumption.
Qed.

(** C4. In [waitNodeGroupState], a read of the group that fails ends the
    wait at once: the wait returns the error of that read, wrapped, and
    the failed read is the last call it made. When every read it made
    succeeded and reported another state than the one waited for, the
    wait returns the timeout error, and by then the deadline has passed.
    The two callers return the error of a wait that failed and leave the
    controller, with its cached size, as the wait found it. *)
Theorem waitNodeGroupState_failures :
  (forall u state timeout (w : World E),
     exists evs,
       log (snd (waitNodeGroupState u state timeout w)) = log w ++ evs /\
       (forall r err, In (EvGetKubernetesNodeGroup r (Err err)) evs ->
          fst (waitNodeGroupState u state timeout w)
            = Err (ErrFetch (Id u) err) /\
          exists evs0,
            evs = evs0 ++ [EvGetKubernetesNodeGroup r (Err err)] /\
            Forall (otherState (groupRequest u) state) evs0) /\
       (Forall (otherState (groupRequest u) state) evs ->
          (exists i, fst (waitNodeGroupState u state timeout w)
                       = Err (ErrTimedOut (Id u) i)) /\
          timeNow w + timeout
            <= timeNow (snd (waitNodeGroupState u state timeout w)))) /\
  (forall size' u (w : World E) m w1 err w2,
     callModifyKubernetesNodeGroup (modifyRequest u size') w = (Ok m, w1) ->
     waitNodeGroupState u Running timeoutWaitNodeGroupState w1 = (Err err, w2) ->
     scaleNodeGroup size' u w = (Some err, u, w2)) /\
  (forall n rest u (w : World E) w1 err w2,
     deleteNode u (GetName n) w = (None, w1) ->
     waitNodeGroupState u Running timeoutWaitNodeGroupState w1 = (Err err, w2) ->
     DeleteNodes (n :: rest) u w = (Some err, u, w2)).
Proof.
  split; [|split].
  - intros u state timeout w.
    destruct (waitNodeGroupState_polled u state timeout w) as [evs [Hlog Hp]].
    exists evs. split; [assumption|]. split.
    + intros r err Hin. eapply Polled_failed_last; eassumption.
    + intros Hall.
      destruct (Polled_only_other Hp Hall) as [i Hi].
      split; [now exists i|].
      eapply waitNodeGroupState_timeout_late; eassumption.
  - intros size' u w m w1 err w2 Hm Hw.
    unfold scaleNodeGroup. fold (modifyRequest u size').
    rewrite Hm. subst Running. now rewrite Hw.
  - intros n rest u w w1 err w2 Hd Hw.
    simpl. rewrite Hd. subst Running. now rewrite Hw.
Qed.

(** The checks of [IncreaseSize] and [DecreaseTargetSize], on the sums
    as the code computes them. *)
Lemma IncreaseSize_checks (delta : Z) (u : upCloudNodeGroup) (w : World E) :
  (delta <= 0 -> IncreaseSize delta u w = (Some (ErrDelta delta), u, w)) /\
  (0 < delta -> Go.add (size u) delta > maxSize u ->
   IncreaseSize delta u w =
   (Some (ErrIncrease (size u) (Go.add (size u) delta) (maxSize u)), u, w)).
Proof.
  unfold IncreaseSize, MaxSize. split.
  - intros Hd. apply Z.leb_le in Hd. now rewrite Hd.
  - intros Hd Hs. apply Z.leb_gt in Hd. rewrite Hd.
    apply Z.gtb_gt in Hs. now rewrite Hs.
Qed.

Lemma DecreaseTargetSize_checks (delta : Z) (u : upCloudNodeGroup)
    (w : World E) :
  (delta >= 0 ->
   DecreaseTargetSize delta u w = (Some (ErrDelta delta), u, w)) /\
  (delta < 0 -> Go.add (size u) delta < minSize u ->
   DecreaseTargetSize delta u w =
   (Some (ErrDecrease (size u) (Go.add (size u) delta) (minSize u)), u, w)).
Proof.
  unfold DecreaseTargetSize, MinSize. split.
  - intros Hd. apply Z.geb_ge in Hd. now rewrite Hd.
  - intros Hd Hs.
    replace (delta >=? 0) with false by (symmetry; rewrite Z.geb_leb; apply Z.leb_gt; lia).
    apply Z.ltb_lt in Hs. now rewrite Hs.
Qed.

(** C5, as the code has it. [IncreaseSize] with [delta <= 0] and
    [DecreaseTargetSize] with [delta >= 0] return the delta error;
    [IncreaseSize] with [delta > 0] and [size + delta > maxSize], and
    [DecreaseTargetSize] with [delta < 0] and [size + delta < minSize],
    return the bounds error, where the sum is one that [int] holds. In
    each case the controller and the world are returned as they were: no
    remote call was made and the cached size is the one before. *)
Theorem size_checks_precede_remote
    (delta : Z) (u : upCloudNodeGroup) (w : World E) :
  (delta <= 0 -> IncreaseSize delta u w = (Some (ErrDelta delta), u, w)) /\
  (0 < delta -> Go.in_range (size u + delta) -> size u + delta > maxSize u ->
   IncreaseSize delta u w =
   (Some (ErrIncrease (size u) (size u + delta) (maxSize u)), u, w)) /\
  (delta >= 0 ->
   DecreaseTargetSize delta u w = (Some (ErrDelta delta), u, w)) /\
  (delta < 0 -> Go.in_range (size u + delta) -> size u + delta < minSize u ->
   DecreaseTargetSize delta u w =
   (Some (ErrDecrease (size u) (size u + delta) (minSize u)), u, w)).
Proof.
  destruct (IncreaseSize_checks delta u w) as [Hi1 Hi2].
  destruct (DecreaseTargetSize_checks delta u w) as [Hd1 Hd2].
  unfold Go.add in *.
  repeat split; try assumption.
  - intros Hd Hr Hs. rewrite <- (wrap_in_range Hr).
    apply Hi2; [assumption|]. now rewrite (wrap_in_range Hr).
  - intros Hd Hr Hs. rewrite <- (wrap_in_range Hr).
    apply Hd2; [assumption|]. now rewrite (wrap_in_range Hr).
Qed.

End ControllerClaims.

(** ** The manager *)

Section ManagerClaims.

Context {E : Type} `{Svc : upCloudService E}.
Context `{Consts : upcloud.StateConstants}.

Lemma append_each {A B : Type} (f : A -> B) (l : list A) (acc : list B) :
  fold_left (fun instances node => instances ++ [f node]) l acc
  = acc ++ map f l.
Proof.
  revert acc. induction l as [|a l IH]; intros acc; simpl.
  - now rewrite app_nil_r.
  - rewrite IH. now rewrite <- app_assoc.
Qed.

Lemma nodeGroupNodes_eq (cluster name' : string) (w : World E) :
  nodeGroupNodes cluster name' w =
  match callGetKubernetesNodeGroupDetails
          {| request.GetClusterUUID := cluster;
             request.GetName := name' |} w with
  | (Err err, w1) => (([], Some err), w1)
  | (Ok ng, w1) => ((map instanceOfNode (upcloud.Nodes ng), None), w1)
  end.
Proof.
  unfold nodeGroupNodes.
  destruct (callGetKubernetesNodeGroupDetails _ w) as [[ng|err] w1];
    [|reflexivity].
  now rewrite append_each.
Qed.

Lemma refreshLoop_cached (gs : list upcloud.KubernetesNodeGroup) :
  forall (m : Manager) (acc : list upCloudNodeGroup) (w : World E),
  exists groups w',
    refreshLoop m gs acc w = (acc ++ groups, w') /\
    Cached (managerClusterID m) gs w groups w'.
Proof.
  induction gs as [|g rest IH]; intros m acc w.
  - exists [], w. simpl. rewrite app_nil_r. split; [reflexivity|constructor].
  - cbn [refreshLoop]. rewrite nodeGroupNodes_eq.
    destruct (callGetKubernetesNodeGroupDetails _ w) as [[ng|err] w1] eqn:Hcall.
    + destruct (IH m (acc ++ [{| clusterID := managerClusterID m;
                                 name := upcloud.Name g;
                                 size := upcloud.Count g;
                                 minSize := nodeGroupMinSize;
                                 maxSize := nodeGroupMaxSize;
                                 nodes := map instanceOfNode (upcloud.Nodes ng) |}])
                  w1) as [groups [w' [Hloop Hc]]].
      eexists. exists w'. split.
      * rewrite Hloop. rewrite <- app_assoc. reflexivity.
      * eapply CachedKeep; eassumption.
    + destruct (IH m acc w1) as [groups [w' [Hloop Hc]]].
      exists groups, w'. split; [assumption|].
      eapply CachedSkip; eassumption.
Qed.

Lemma refreshLoop_cluster (gs : list upcloud.KubernetesNodeGroup) :
  forall (m m' : Manager) (acc : list upCloudNodeGroup) (w : World E),
    managerClusterID m = managerClusterID m' ->
    refreshLoop m gs acc w = refreshLoop m' gs acc w.
Proof.
  induction gs as [|g rest IH]; intros m m' acc w Hc; simpl.
  - reflexivity.
  - rewrite <- Hc.
    destruct (nodeGroupNodes (managerClusterID m) (upcloud.Name g) w)
      as [[nodes' [err|]] w1]; now apply IH.
Qed.

Lemma Cached_bounds (cluster : string) gs (w : World E) groups w' :
  Cached cluster gs w groups w' ->
  Forall (fun c => clusterID c = cluster /\
                   minSize c = nodeGroupMinSize /\
                   maxSize c = nodeGroupMaxSize) groups.
Proof.
  induction 1; [constructor|assumption|].
  constructor; [now repeat split|assumption].
Qed.

(** C6. When the listing of the groups succeeds, [Refresh] returns nil
    and the manager holds a new collection: [Cached] says that the
    listed groups are gone through in order, that a group whose nodes
    cannot be read is passed over and the next one taken, and that every
    other group yields a controller with the instances of the nodes read
    in this refresh and the default bounds. The collection the manager
    held before has no part in the result: whatever it was, the result is
    the same. *)
Theorem Refresh_replaces_collection
    (m : Manager) (w : World E) (gs : list upcloud.KubernetesNodeGroup)
    (w1 : World E) :
  callGetKubernetesNodeGroups
    {| request.GroupsClusterUUID := managerClusterID m |} w = (Ok gs, w1) ->
  exists groups w',
    Refresh m w =
      (None,
       {| managerClusterID := managerClusterID m; nodeGroups := groups |},
       w') /\
    Cached (managerClusterID m) gs w1 groups w' /\
    Forall (fun c => clusterID c = managerClusterID m /\
                     minSize c = nodeGroupMinSize /\
                     maxSize c = nodeGroupMaxSize) groups /\
    (forall old : list upCloudNodeGroup,
       Refresh {| managerClusterID := managerClusterID m;
                  nodeGroups := old |} w =
       (None,
        {| managerClusterID := managerClusterID m; nodeGroups := groups |},
        w')).
Proof.
  intros Hlist.
  destruct (refreshLoop_cached gs m [] w1) as [groups [w' [Hloop Hc]]].
  simpl in Hloop.
  exists groups, w'. split; [|split; [|split]].
  - unfold Refresh. rewrite Hlist, Hloop. reflexivity.
  - assumption.
  - eapply Cached_bounds; eassumption.
  - intros old. unfold Refresh. cbn [managerClusterID]. rewrite Hlist.
    rewrite (refreshLoop_cluster gs
               {| managerClusterID := managerClusterID m; nodeGroups := old |}
               m [] w1 eq_refl).
    rewrite Hloop. reflexivity.
Qed.

(** C9. When the listing of the groups fails, [Refresh] returns the
    error of the listing and the manager as it was, collection included;
    the listing is the only remote call made. *)
Theorem Refresh_listing_failure
    (m : Manager) (w : World E) (err : error) (w1 : World E) :
  callGetKubernetesNodeGroups
    {| request.GroupsClusterUUID := managerClusterID m |} w = (Err err, w1) ->
  Refresh m w = (Some err, m, w1) /\
  log w1 = log w ++
    [EvGetKubernetesNodeGroups
       {| request.GroupsClusterUUID := managerClusterID m |} (Err err)].
Proof.
  intros Hlist. split.
  - unfold Refresh. now rewrite Hlist.
  - unfold callGetKubernetesNodeGroups in Hlist.
    destruct (GetKubernetesNodeGroups _ (env w)) as [res e'].
    inversion Hlist; subst. reflexivity.
Qed.

End ManagerClaims.

(** ** The cloud provider *)

Section ProviderClaims.

Context {E : Type} `{Svc : upCloudService E}.
Context `{Consts : upcloud.StateConstants}.

Lemma hasInstance_In (providerID : string) (l : list cloudprovider.Instance) :
  hasInstance providerID l = true <->
  exists n, In n l /\ cloudprovider.Id n = providerID.
Proof.
  induction l as [|n l IH]; simpl.
  - split; [discriminate|]. now intros [n [[] _]].
  - destruct (String.eqb (cloudprovider.Id n) providerID) eqn:Heq.
    + apply String.eqb_eq in Heq. split; [|reflexivity].
      intros _. exists n. split; [now left|assumption].
    + apply String.eqb_neq in Heq. rewrite IH. split.
      * intros [n' [Hin Hid]]. exists n'. split; [now right|assumption].
      * intros [n' [[->|Hin] Hid]]; [contradiction|]. now exists n'.
Qed.

(** The scan returns the first group that has the instance, and never an
    error. *)
Lemma groupForProviderID_scan (providerID : string)
    (groups : list upCloudNodeGroup) :
  (forallb (fun c => negb (hasInstance providerID (nodes c))) groups = true /\
   groupForProviderID providerID groups = (None, None)) \/
  (exists before c after,
     groups = before ++ c :: after /\
     forallb (fun c => negb (hasInstance providerID (nodes c))) before = true /\
     hasInstance providerID (nodes c) = true /\
     groupForProviderID providerID groups = (Some c, None)).
Proof.
  induction groups as [|c rest IH]; simpl.
  - now left.
  - destruct (hasInstance providerID (nodes c)) eqn:Hc; simpl.
    + right. exists [], c, rest. now repeat split.
    + destruct IH as [[Hall Hres]|[before [c' [after [Heq [Hall [Hc' Hres]]]]]]].
      * left. now split.
      * right. exists (c :: before), c', after. simpl. rewrite Hc.
        split; [now rewrite Heq|]. now repeat split.
Qed.

(** C7. [NodeGroupForNode] looks for the provider ID of the node among
    the cached instances of the controllers, in order. It never returns
    an error. When no cached instance of any controller has the ID, it
    returns no group and no error. When some controller has a cached
    instance with the ID, it returns a controller of the collection that
    has one: the first in the order of the collection. *)
Theorem NodeGroupForNode_scan (p : upCloudCloudProvider) (node : Node) :
  let providerID := SpecProviderID node in
  let groups := nodeGroups (manager p) in
  let owns (c : upCloudNodeGroup) :=
    exists n, In n (nodes c) /\ cloudprovider.Id n = providerID in
  snd (NodeGroupForNode p node) = None /\
  ((forall c, In c groups -> ~ owns c) ->
   NodeGroupForNode p node = (None, None)) /\
  ((exists c, In c groups /\ owns c) ->
   exists before c after,
     NodeGroupForNode p node = (Some c, None) /\
     owns c /\
     groups = before ++ c :: after /\
     forall c', In c' before -> ~ owns c').
Proof.
  intros providerID groups owns. unfold NodeGroupForNode.
  fold providerID. fold groups.
  assert (Hnone : forall l,
    forallb (fun c => negb (hasInstance providerID (nodes c))) l = true ->
    forall c, In c l -> ~ owns c).
  { intros l Hall c Hin Hown.
    rewrite forallb_forall in Hall. specialize (Hall c Hin).
    apply (proj2 (hasInstance_In providerID (nodes c))) in Hown.
    now rewrite Hown in Hall. }
  destruct (groupForProviderID_scan providerID groups)
    as [[Hall Hres]|[before [c [after [Heq [Hall [Hc Hres]]]]]]];
    rewrite Hres; simpl.
  - split; [reflexivity|]. split; [reflexivity|].
    intros [c [Hin Hown]]. exfalso. exact (Hnone groups Hall c Hin Hown).
  - split; [reflexivity|]. split.
    + intros Hno. exfalso. apply (Hno c).
      * rewrite Heq. apply in_or_app. right. now left.
      * now apply hasInstance_In.
    + intros _. exists before, c, after.
      split; [reflexivity|]. split; [now apply hasInstance_In|].
      split; [assumption|]. now apply Hnone.
Qed.

(** ** The state mappers *)

(** C8. The state mappers are functions from every state to an instance
    status. [nodeStateToInstanceStatus] maps the running state to
    [InstanceRunning], the terminating state to [InstanceDeleting], the
    pending state to [InstanceCreating], each without error information,
    and every other state to the error information of class
    [OtherErrorClass] whose code is the state itself.
    [serverStateToInstanceStatus], the mapper of the earlier manager,
    does the same for its states: "started" is running, "maintenance"
    and "stopped" are deleting, every other state is the error. *)
Theorem state_mappers_total :
  let status s :=
    {| cloudprovider.InstState := s; cloudprovider.ErrorInfo := None |} in
  let unknown code :=
    {| cloudprovider.InstState := cloudprovider.InstanceStateZero;
       cloudprovider.ErrorInfo :=
         Some {| cloudprovider.ErrorClass := cloudprovider.OtherErrorClass;
                 cloudprovider.ErrorCode := code |} |} in
  (nodeStateToInstanceStatus upcloud.KubernetesNodeStateRunning
     = status cloudprovider.InstanceRunning /\
   nodeStateToInstanceStatus upcloud.KubernetesNodeStateTerminating
     = status cloudprovider.InstanceDeleting /\
   nodeStateToInstanceStatus upcloud.KubernetesNodeStatePending
     = status cloudprovider.InstanceCreating /\
   forall nodeState,
     nodeState <> upcloud.KubernetesNodeStateRunning ->
     nodeState <> upcloud.KubernetesNodeStateTerminating ->
     nodeState <> upcloud.KubernetesNodeStatePending ->
     nodeStateToInstanceStatus nodeState = unknown nodeState) /\
  (serverStateToInstanceStatus "started"
     = status cloudprovider.InstanceRunning /\
   serverStateToInstanceStatus "maintenance"
     = status cloudprovider.InstanceDeleting /\
   serverStateToInstanceStatus "stopped"
     = status cloudprovider.InstanceDeleting /\
   forall serverStatus,
     serverStatus <> "started"%string ->
     serverStatus <> "maintenance"%string ->
     serverStatus <> "stopped"%string ->
     serverStateToInstanceStatus serverStatus = unknown serverStatus).
Proof.
  intros status unknown.
  pose proof upcloud.node_states_distinct as Hd.
  inversion Hd as [|? ? Hr Hd1]; subst.
  inversion Hd1 as [|? ? Ht _]; subst.
  assert (Hrt : upcloud.KubernetesNodeStateTerminating
                <> upcloud.KubernetesNodeStateRunning).
  { intros Heq. apply Hr. left. now symmetry. }
  assert (Hrp : upcloud.KubernetesNodeStatePending
                <> upcloud.KubernetesNodeStateRunning).
  { intros Heq. apply Hr. right. left. now symmetry. }
  assert (Htp : upcloud.KubernetesNodeStatePending
                <> upcloud.KubernetesNodeStateTerminating).
  { intros Heq. apply Ht. left. now symmetry. }
  apply String.eqb_neq in Hrt, Hrp, Htp.
  split.
  - unfold nodeStateToInstanceStatus. repeat split.
    + now rewrite String.eqb_refl.
    + now rewrite Hrt, String.eqb_refl.
    + now rewrite Hrp, Htp, String.eqb_refl.
    + intros s H1 H2 H3. apply String.eqb_neq in H1, H2, H3.
      now rewrite H1, H2, H3.
  - unfold serverStateToInstanceStatus. repeat split.
    intros s H1 H2 H3. apply String.eqb_neq in H1, H2, H3.
    now rewrite H1, H2, H3.
Qed.

End ProviderClaims.

(** ** More about the wait and the mutations *)

Section ControllerMore.

Context {E : Type} `{Svc : upCloudService E}.
Context `{Consts : upcloud.StateConstants}.

Lemma turns_from (t timeout : Z) :
  turns (t + timeout) t
  = Z.to_nat ((timeout + pollInterval - 1) / pollInterval).
Proof. unfold turns. f_equal. f_equal. lia. Qed.




(** A wait that succeeds. The group [waitNodeGroupState] returns is the
    one its last read reported, and its state is the state waited for;
    every read before it succeeded and reported another state. *)
Theorem waitNodeGroupState_success
    (u : upCloudNodeGroup) (state : upcloud.KubernetesNodeGroupState)
    (timeout : Z) (w w' : World E) (g : upcloud.KubernetesNodeGroup) :
  waitNodeGroupState u state timeout w = (Ok g, w') ->
  upcloud.State g = state /\
  0 < timeout /\
  exists polls,
    log w' = log w ++ polls ++ [EvGetKubernetesNodeGroup (groupRequest u) (Ok g)] /\
    Forall (otherState (groupRequest u) state) polls.
Proof.
  intros Hw.
  destruct (waitNodeGroupState_ok _ _ _ _ Hw) as [Hst Hpolls].
  split; [assumption|]. split; [|assumption].
  destruct (Z_lt_le_dec 0 timeout) as [Hpos|Hneg]; [assumption|].
  exfalso. unfold waitNodeGroupState, waitFrom in Hw.
  rewrite turns_from in Hw.
  replace (Z.to_nat ((timeout + pollInterval - 1) / pollInterval)) with 0%nat in Hw.
  - discriminate Hw.
  - pose proof pollInterval_pos as Hp0.
    assert ((timeout + pollInterval - 1) / pollInterval <= 0); [|lia].
    destruct (Z_lt_le_dec (timeout + pollInterval - 1) 0) as [Hlt|Hge].
    + pose proof (Z.div_lt_upper_bound (timeout + pollInterval - 1)
                    pollInterval 0 Hp0). lia.
    + rewrite Z.div_small; lia.
Qed.

(** A failed scaling changes nothing in the controller: whatever error
    [IncreaseSize] or [DecreaseTargetSize] returns (the delta, the bounds,
    the modify request, a read of the group, the timeout), the controller
    is returned as it was. *)
Theorem scaling_failure_keeps_controller
    (delta : Z) (u : upCloudNodeGroup) (w : World E) (err : error)
    (u' : upCloudNodeGroup) (w' : World E) :
  IncreaseSize delta u w = (Some err, u', w') \/
  DecreaseTargetSize delta u w = (Some err, u', w') ->
  u' = u.
Proof.
  intros [Hrun|Hrun].
  - unfold IncreaseSize in Hrun. destruct (delta <=? 0); [now inversion Hrun|].
    destruct (_ >? _); [now inversion Hrun|].
    eapply scaleNodeGroup_failed; eassumption.
  - unfold DecreaseTargetSize in Hrun.
    destruct (delta >=? 0); [now inversion Hrun|].
    destruct (_ <? _); [now inversion Hrun|].
    eapply scaleNodeGroup_failed; eassumption.
Qed.



(** [DeleteNodes], whatever its outcome, returns the controller it was
    given with another size at most. *)
Lemma DeleteNodes_size_only (nodes' : list Node) :
  forall u (w : World E),
    snd (fst (DeleteNodes nodes' u w))
    = set_size u (size (snd (fst (DeleteNodes nodes' u w)))).
Proof.
  induction nodes' as [|n rest IH]; intros u w; simpl.
  - now rewrite set_size_same.
  - destruct (deleteNode u (GetName n) w) as [[err|] w1]; simpl.
    + now rewrite set_size_same.
    + destruct (waitNodeGroupState u _ _ w1) as [[g|err] w2]; simpl.
      * rewrite (IH (set_size u (upcloud.Count g)) w2) at 1. reflexivity.
      * now rewrite set_size_same.
Qed.

(** Only the size changes. [IncreaseSize], [DecreaseTargetSize] and
    [DeleteNodes] return, on success and on failure, a controller with
    the cluster id, the name, the bounds and the cached instances it had:
    the instances that [Nodes] returns are the same after a deletion as
    before it. *)
Theorem mutation_changes_size_only
    (op : Mutation) (u : upCloudNodeGroup) (w : World E) :
  let u' := snd (fst (mutate op u w)) in
  clusterID u' = clusterID u /\ name u' = name u /\
  minSize u' = minSize u /\ maxSize u' = maxSize u /\
  Nodes u' = Nodes u.
Proof.
  intros u'.
  assert (Hu : u' = set_size u (size u')).
  { subst u'.
    assert (Hscale : forall size',
      snd (fst (scaleNodeGroup size' u w))
      = set_size u (size (snd (fst (scaleNodeGroup size' u w))))).
    { intros size'. unfold scaleNodeGroup.
      destruct (callModifyKubernetesNodeGroup _ w) as [[m|err] w1]; simpl.
      - destruct (waitNodeGroupState u _ _ w1) as [[g|err] w2]; simpl;
          [reflexivity|now rewrite set_size_same].
      - now rewrite set_size_same. }
    destruct op as [delta|delta|nodes']; simpl.
    - unfold IncreaseSize. destruct (delta <=? 0);
        [simpl; now rewrite set_size_same|].
      destruct (_ >? _); [simpl; now rewrite set_size_same|apply Hscale].
    - unfold DecreaseTargetSize. destruct (delta >=? 0);
        [simpl; now rewrite set_size_same|].
      destruct (_ <? _); [simpl; now rewrite set_size_same|apply Hscale].
    - apply DeleteNodes_size_only. }
  rewrite Hu. unfold Nodes. simpl. now repeat split.
Qed.


(** A batch can be split. Deleting [pre ++ post] in one call is deleting
    [pre] and then, when that succeeded, [post], from the controller and
    the world that the first call left; when the first call fails, its
    result is the result of the whole. *)
Theorem DeleteNodes_split
    (pre post : list Node) (u : upCloudNodeGroup) (w : World E) :
  (forall u1 w1,
     DeleteNodes pre u w = (None, u1, w1) ->
     DeleteNodes (pre ++ post) u w = DeleteNodes post u1 w1) /\
  (forall err u1 w1,
     DeleteNodes pre u w = (Some err, u1, w1) ->
     DeleteNodes (pre ++ post) u w = (Some err, u1, w1)).
Proof.
  split; intros; rewrite DeleteNodes_app; now rewrite H.
Qed.

End ControllerMore.

(** ** More about the manager and the node resolution *)

Section ManagerMore.

Context {E : Type} `{Svc : upCloudService E}.
Context `{Consts : upcloud.StateConstants}.

(** The calls of the loop of [Refresh] and what it builds from them. *)
Lemma Cached_log (cluster : string) gs (w : World E) groups w' :
  Cached cluster gs w groups w' ->
  exists evs,
    log w' = log w ++ evs /\
    forallb isDetails evs = true /\
    map fst (detailsReads evs) = map (detailsRequest cluster) gs /\
    groups = controllersOf cluster gs (map snd (detailsReads evs)).
Proof.
  induction 1 as [w|g rest w w1 err groups w' Hcall _ IH
                  |g rest w w1 ng groups w' Hcall _ IH].
  - exists []. rewrite app_nil_r. now repeat split.
  - destruct IH as [evs [Hlog [Hall [Hreq Hgroups]]]].
    unfold callGetKubernetesNodeGroupDetails in Hcall.
    destruct (GetKubernetesNodeGroupDetails _ (env w)) as [res e1].
    inversion Hcall; subst res w1. simpl in Hlog.
    eexists (_ :: evs). split; [|split; [|split]].
    + rewrite Hlog. rewrite <- app_assoc. reflexivity.
    + simpl. exact Hall.
    + simpl. now rewrite Hreq.
    + simpl. exact Hgroups.
  - destruct IH as [evs [Hlog [Hall [Hreq Hgroups]]]].
    unfold callGetKubernetesNodeGroupDetails in Hcall.
    destruct (GetKubernetesNodeGroupDetails _ (env w)) as [res e1].
    inversion Hcall; subst res w1. simpl in Hlog.
    eexists (_ :: evs). split; [|split; [|split]].
    + rewrite Hlog. rewrite <- app_assoc. reflexivity.
    + simpl. exact Hall.
    + simpl. now rewrite Hreq.
    + simpl. now rewrite Hgroups.
Qed.

(** [Refresh] succeeds exactly when the listing does. *)
Lemma Refresh_ok_listing (m : Manager) (w : World E) m' w' :
  Refresh m w = (None, m', w') ->
  exists gs e1,
    GetKubernetesNodeGroups
      {| request.GroupsClusterUUID := managerClusterID m |} (env w)
    = (Ok gs, e1).
Proof.
  unfold Refresh, callGetKubernetesNodeGroups.
  destruct (GetKubernetesNodeGroups _ (env w)) as [[gs|err] e1].
  - intros _. now exists gs, e1.
  - discriminate.
Qed.

Lemma Refresh_ok_log (m : Manager) (w : World E) m' w' :
  Refresh m w = (None, m', w') ->
  exists gs evs,
    log w' = log w ++
      EvGetKubernetesNodeGroups
        {| request.GroupsClusterUUID := managerClusterID m |} (Ok gs) :: evs /\
    forallb isDetails evs = true /\
    map fst (detailsReads evs) = map (detailsRequest (managerClusterID m)) gs /\
    managerClusterID m' = managerClusterID m /\
    nodeGroups m' =
      controllersOf (managerClusterID m) gs (map snd (detailsReads evs)).
Proof.
  intros Hrun.
  destruct (Refresh_ok_listing _ _ Hrun) as [gs [e1 Hlist]].
  unfold Refresh, callGetKubernetesNodeGroups in Hrun. rewrite Hlist in Hrun.
  destruct (refreshLoop_cached gs m [] (record w e1
              (EvGetKubernetesNodeGroups
                 {| request.GroupsClusterUUID := managerClusterID m |} (Ok gs))))
    as [groups [w2 [Hloop Hc]]].
  rewrite Hloop in Hrun. simpl in Hrun. inversion Hrun; subst m' w'.
  destruct (Cached_log Hc) as [evs [Hlog [Hall [Hreq Hgroups]]]].
  exists gs, evs. simpl in Hlog. repeat split; try assumption.
  rewrite Hlog. now rewrite <- app_assoc.
Qed.

Lemma controllersOf_length (cluster : string) gs :
  forall outcomes,
    (List.length (controllersOf cluster gs outcomes) <= List.length gs)%nat.
Proof.
  induction gs as [|g gs IH]; intros outcomes; simpl; [lia|].
  destruct outcomes as [|[ng|err] outcomes]; simpl; [lia| |].
  - specialize (IH outcomes). lia.
  - specialize (IH outcomes). lia.
Qed.

(** The calls of a refresh. A [Refresh] that succeeds has listed the
    groups once and then read the details of every listed group, once
    each and in the order of the listing, and made no other call; the new
    collection is the one that the listing and the outcomes of these
    reads determine ([controllersOf]), so it holds no more controllers
    than groups were listed. *)
Theorem Refresh_calls
    (m : Manager) (w : World E) (m' : Manager) (w' : World E) :
  Refresh m w = (None, m', w') ->
  exists gs evs,
    log w' = log w ++
      EvGetKubernetesNodeGroups
        {| request.GroupsClusterUUID := managerClusterID m |} (Ok gs) :: evs /\
    forallb isDetails evs = true /\
    map fst (detailsReads evs) = map (detailsRequest (managerClusterID m)) gs /\
    nodeGroups m' =
      controllersOf (managerClusterID m) gs (map snd (detailsReads evs)) /\
    (List.length (nodeGroups m') <= List.length gs)%nat.
Proof.
  intros Hrun.
  destruct (Refresh_ok_log _ _ Hrun) as [gs [evs [Hlog [Hall [Hreq [_ Hg]]]]]].
  exists gs, evs. repeat split; try assumption.
  rewrite Hg. apply controllersOf_length.
Qed.






(** The first variable that is missing. The error of [newManager] names
    the first variable that is empty or not set among the user name, the
    password and the cluster id, in this order, and with all three set it
    fails exactly when the cluster id does not parse as a UUID;
    [cloudConfigFromEnv] looks at the cluster id first, then the user
    name, then the password, and fails for no other reason. *)
Theorem first_missing_variable
    (getenv : string -> string) (uuidParse : string -> Result string)
    (opts : AutoscalingOptions) :
  snd (newManager getenv uuidParse) =
    match firstMissing getenv
            [envUpCloudUsername; envUpCloudPassword; envUpCloudClusterID] with
    | Some variable => Some (ErrEnvNotSet variable)
    | None =>
        match uuidParse (getenv envUpCloudClusterID) with
        | Err err => Some (ErrNotUUID envUpCloudClusterID err)
        | Ok _ => None
        end
    end /\
  snd (cloudConfigFromEnv getenv opts) =
    match firstMissing getenv
            [envUpCloudClusterID; envUpCloudUsername; envUpCloudPassword] with
    | Some variable => Some (ErrEnvNotSet variable)
    | None => None
    end /\
  (fst (newManager getenv uuidParse) = None <->
   snd (newManager getenv uuidParse) <> None).
Proof.
  unfold newManager, cloudConfigFromEnv, firstMissing.
  cbn [ClusterID Username Password find].
  destruct (String.eqb (getenv envUpCloudUsername) "");
    destruct (String.eqb (getenv envUpCloudPassword) "");
    destruct (String.eqb (getenv envUpCloudClusterID) "");
    try destruct (uuidParse (getenv envUpCloudClusterID));
    cbn [fst snd]; repeat split; try discriminate; try reflexivity;
    try (intros Habs; now contradiction Habs).
Qed.

(** From the environment to the service. When [cloudConfigFromEnv]
    succeeds, the three variables are set and the configuration holds
    their values; [newUpCloudService] then succeeds on it, with a client
    for these credentials whose user agent is the one of the options
    when that is not empty and the default of the client otherwise. *)
Theorem config_then_service
    (getenv : string -> string) (opts : AutoscalingOptions)
    (defaultUserAgent : string) (cfg : upCloudConfig) :
  cloudConfigFromEnv getenv opts = (cfg, None) ->
  ClusterID cfg = getenv envUpCloudClusterID /\
  ClusterID cfg <> ""%string /\
  UserAgent cfg = OptionsUserAgent opts /\
  newUpCloudService defaultUserAgent cfg =
    (Some {| ClientUsername := getenv envUpCloudUsername;
             ClientPassword := getenv envUpCloudPassword;
             ClientUserAgent :=
               if String.eqb (OptionsUserAgent opts) ""
               then defaultUserAgent else OptionsUserAgent opts |},
     None) /\
  getenv envUpCloudUsername <> ""%string /\
  getenv envUpCloudPassword <> ""%string.
Proof.
  unfold cloudConfigFromEnv. cbn [ClusterID Username Password UserAgent].
  destruct (String.eqb (getenv envUpCloudClusterID) "") eqn:Hc; [discriminate|].
  destruct (String.eqb (getenv envUpCloudUsername) "") eqn:Hu; [discriminate|].
  destruct (String.eqb (getenv envUpCloudPassword) "") eqn:Hp; [discriminate|].
  intros Heq. inversion Heq as [Hcfg]. clear Heq.
  unfold newUpCloudService.
  destruct (String.eqb (OptionsUserAgent opts) "") eqn:Ha; simpl;
    rewrite Hu, Hp; simpl; rewrite ?Ha; simpl;
    apply String.eqb_neq in Hc, Hu, Hp;
    repeat split; try assumption; try reflexivity.
  apply String.eqb_eq in Ha. now rewrite Ha.
Qed.

End ManagerMore.

(** ** Identifiers, state mappers, template and filters *)

Lemma occurs_append (c : Ascii.ascii) (a x : string) :
  occurs c (a ++ String c x) = true.
Proof.
  induction a as [|a0 a IH]; simpl.
  - now rewrite Ascii.eqb_refl.
  - rewrite IH. apply orb_true_r.
Qed.

(** A string is cut at the first occurrence of a character in one way
    only. *)
Lemma cut_unique (c : Ascii.ascii) (a : string) : forall (b x y : string),
  occurs c a = false -> occurs c b = false ->
  (a ++ String c x)%string = (b ++ String c y)%string ->
  a = b /\ x = y.
Proof.
  induction a as [|a0 a IH]; intros [|b0 b] x y Ha Hb Heq; simpl in *.
  - now inversion Heq.
  - inversion Heq; subst b0. now rewrite Ascii.eqb_refl in Hb.
  - inversion Heq; subst a0. now rewrite Ascii.eqb_refl in Ha.
  - inversion Heq; subst b0.
    apply orb_false_iff in Ha, Hb.
    destruct (IH b x y (proj2 Ha) (proj2 Hb) H1) as [-> ->]. now split.
Qed.

Section Identity.

Context {E : Type} `{Svc : upCloudService E}.
Context `{Consts : upcloud.StateConstants}.

(** [Id] identifies the group. For cluster ids without a slash, as the
    string form of a UUID is, two controllers have the same [Id] exactly
    when they have the same cluster id and the same name. *)
Theorem Id_identifies (u v : upCloudNodeGroup) :
  occurs "/"%char (clusterID u) = false ->
  occurs "/"%char (clusterID v) = false ->
  (Id u = Id v <-> clusterID u = clusterID v /\ name u = name v).
Proof.
  intros Hu Hv. unfold Id. split.
  - intros Heq. simpl in Heq. eapply cut_unique; eassumption.
  - intros [-> ->]. reflexivity.
Qed.

(** The two halves of an instance status. For every state, each mapper
    sets either a named instance state or the error information, never
    both and never neither; the error information has the class
    [OtherErrorClass] and the state itself as its code, and
    [nodeStateToInstanceStatus] gives it exactly to the states that are
    none of the three constants. [serverStateToInstanceStatus] never
    reports [InstanceCreating]. *)
Theorem status_state_or_error :
  (forall nodeState,
     let st := nodeStateToInstanceStatus nodeState in
     (cloudprovider.ErrorInfo st = None <->
      cloudprovider.InstState st <> cloudprovider.InstanceStateZero) /\
     (cloudprovider.ErrorInfo st = None <->
      In nodeState [upcloud.KubernetesNodeStateRunning;
                    upcloud.KubernetesNodeStateTerminating;
                    upcloud.KubernetesNodeStatePending]) /\
     (forall info, cloudprovider.ErrorInfo st = Some info ->
        info = {| cloudprovider.ErrorClass := cloudprovider.OtherErrorClass;
                  cloudprovider.ErrorCode := nodeState |})) /\
  (forall serverStatus,
     let st := serverStateToInstanceStatus serverStatus in
     (cloudprovider.ErrorInfo st = None <->
      cloudprovider.InstState st <> cloudprovider.InstanceStateZero) /\
     cloudprovider.InstState st <> cloudprovider.InstanceCreating /\
     (forall info, cloudprovider.ErrorInfo st = Some info ->
        info = {| cloudprovider.ErrorClass := cloudprovider.OtherErrorClass;
                  cloudprovider.ErrorCode := serverStatus |})).
Proof.
  split.
  - intros s st. subst st. unfold nodeStateToInstanceStatus.
    destruct (String.eqb s upcloud.KubernetesNodeStateRunning) eqn:Hr;
      [|destruct (String.eqb s upcloud.KubernetesNodeStateTerminating) eqn:Ht;
        [|destruct (String.eqb s upcloud.KubernetesNodeStatePending) eqn:Hp]];
      simpl.
    + apply String.eqb_eq in Hr. repeat split; try discriminate; auto.
    + apply String.eqb_eq in Ht. repeat split; try discriminate; auto.
    + apply String.eqb_eq in Hp. repeat split; try discriminate; auto.
    + apply String.eqb_neq in Hr, Ht, Hp. repeat split; try discriminate.
      * intros Habs. now contradiction Habs.
      * intros [Heq|[Heq|[Heq|[]]]]; exfalso; auto.
      * intros info Heq. now inversion Heq.
  - intros s st. subst st. unfold serverStateToInstanceStatus.
    destruct (String.eqb s "started");
      [|destruct (String.eqb s "maintenance" || String.eqb s "stopped")];
      simpl; repeat split; try discriminate; auto.
    + intros Habs. now contradiction Habs.
    + intros info Heq. now inversion Heq.
Qed.

End Identity.

(** ** The template *)

Lemma find_last {A : Type} (p : A -> bool) (l : list A) (a : A) :
  find p (l ++ [a]) =
  match find p l with
  | Some x => Some x
  | None => if p a then Some a else None
  end.
Proof.
  induction l as [|b l IH]; simpl; [reflexivity|].
  destruct (p b); [reflexivity|assumption].
Qed.

Lemma templateLabels_from (ls : list upcloudapi.Label) :
  forall (m : string -> option string) (k : string),
    fold_left (fun m l => mapSet m (upcloudapi.Key l) (upcloudapi.Value l))
      ls m k =
    match find (fun l => String.eqb (upcloudapi.Key l) k) (rev ls) with
    | Some l => Some (upcloudapi.Value l)
    | None => m k
    end.
Proof.
  induction ls as [|l ls IH]; intros m k; simpl; [reflexivity|].
  rewrite IH, find_last.
  destruct (find _ (rev ls)); [reflexivity|].
  unfold mapSet. rewrite String.eqb_sym.
  now destruct (String.eqb (upcloudapi.Key l) k).
Qed.

Lemma templateTaints_eq (ts : list upcloudapi.KubernetesTaint) :
  templateTaints ts
  = repeat apiv1.zeroTaint (List.length ts) ++ map taintOf ts.
Proof. unfold templateTaints. apply append_each. Qed.

(** The taints of the template. [TemplateNodeInfo] answers only for a
    controller whose cached size is not positive. The taints of the node
    it describes are twice as many as the group has: as many zero-valued
    taints first, then the taints of the group, in order. *)
Theorem TemplateNodeInfo_taints (u : upCloudNodeGroup) (s : templateShape) :
  (0 < size u -> TemplateNodeInfo u s = Err ErrNotImplemented) /\
  (size u <= 0 ->
   exists info,
     TemplateNodeInfo u s = Ok info /\
     apiv1.Taints (schedulerframework.node info)
     = repeat apiv1.zeroTaint (List.length (taints s)) ++ map taintOf (taints s) /\
     List.length (apiv1.Taints (schedulerframework.node info))
     = (2 * List.length (taints s))%nat /\
     (forall i t, nth_error (taints s) i = Some t ->
        nth_error (apiv1.Taints (schedulerframework.node info))
          (List.length (taints s) + i) = Some (taintOf t)) /\
     (forall i, (i < List.length (taints s))%nat ->
        nth_error (apiv1.Taints (schedulerframework.node info)) i
        = Some apiv1.zeroTaint)).
Proof.
  unfold TemplateNodeInfo. split.
  - intros Hpos. apply Z.gtb_lt in Hpos. now rewrite Hpos.
  - intros Hneg.
    replace (size u >? 0) with false
      by (symmetry; rewrite Z.gtb_ltb; apply Z.ltb_ge; lia).
    eexists. split; [reflexivity|]. cbn [schedulerframework.node apiv1.Taints].
    rewrite templateTaints_eq. split; [reflexivity|]. split; [|split].
    + rewrite length_app, repeat_length, length_map. lia.
    + intros i t Hnth. rewrite nth_error_app2 by (rewrite repeat_length; lia).
      rewrite repeat_length.
      replace (List.length (taints s) + i - List.length (taints s))%nat with i
        by lia.
      now apply map_nth_error.
    + intros i Hi. rewrite nth_error_app1 by (now rewrite repeat_length).
      now apply nth_error_repeat.
Qed.

(** The labels of the template. A key has, on the node that
    [TemplateNodeInfo] describes, the value of the last label of the
    group with that key, and no value when the group has no such
    label. *)
Theorem TemplateNodeInfo_labels
    (u : upCloudNodeGroup) (s : templateShape)
    (info : schedulerframework.NodeInfo) (k : string) :
  TemplateNodeInfo u s = Ok info ->
  apiv1.Labels (schedulerframework.node info) k =
  match find (fun l => String.eqb (upcloudapi.Key l) k) (rev (labels s)) with
  | Some l => Some (upcloudapi.Value l)
  | None => None
  end.
Proof.
  unfold TemplateNodeInfo. destruct (size u >? 0); [discriminate|].
  intros Heq. inversion Heq. cbn [schedulerframework.node apiv1.Labels].
  unfold templateLabels. apply templateLabels_from.
Qed.

(** ** The query filters *)

(** The query parameter tells the filter. Two filters whose keys hold no
    "=" have the same query parameter only when they are the same filter:
    the same kind, the same key, the same value. *)
Theorem ToQueryParam_injective (f1 f2 : filter.QueryFilter) :
  occurs "="%char (filterKey f1) = false ->
  occurs "="%char (filterKey f2) = false ->
  filter.ToQueryParam f1 = filter.ToQueryParam f2 ->
  f1 = f2.
Proof.
  destruct f1 as [[k1 v1]|k1], f2 as [[k2 v2]|k2]; simpl; intros H1 H2 Heq;
    inversion Heq as [Hrest]; clear Heq.
  - edestruct cut_unique as [Hk Hv]; [exact H1|exact H2|exact Hrest|].
    now rewrite Hk, Hv.
  - rewrite <- Hrest in H2. now rewrite occurs_append in H2.
  - rewrite Hrest in H1. now rewrite occurs_append in H1.
  - reflexivity.
Qed.

(** ** The nodes of a group, by the earlier manager *)

Section ServerGroupNodes.

Context {E : Type} `{Svc : servergroups.upCloudService E}.



End ServerGroupNodes.

(** ** Runs against the scripted service *)

#[local] Existing Instance Mock.service.
#[local] Existing Instance Mock.constants.

(** C3. After an [IncreaseSize] or a [DecreaseTargetSize] that succeeds,
    the log holds the modify request for the sum the operation computed,
    then the polls, then the read of the group that reported [Running];
    [TargetSize] returns the count of that read, with no error. The count
    need not be the size that was requested: the run of the second part
    asks for 6 nodes and caches the 3 that the remote reports. *)
Theorem TargetSize_is_remote_count :
  (forall (E : Type) (Svc : upCloudService E) (Consts : upcloud.StateConstants)
          (delta : Z) (u : upCloudNodeGroup) (w : World E)
          (u' : upCloudNodeGroup) (w' : World E),
      IncreaseSize delta u w = (None, u', w') \/
      DecreaseTargetSize delta u w = (None, u', w') ->
      exists m polls g,
        log w' = log w ++
          EvModifyKubernetesNodeGroup
            (modifyRequest u (Go.add (size u) delta)) (Ok m) ::
          polls ++ [EvGetKubernetesNodeGroup (groupRequest u) (Ok g)] /\
        Forall (otherState (groupRequest u)
                  upcloud.KubernetesNodeGroupStateRunning) polls /\
        upcloud.State g = upcloud.KubernetesNodeGroupStateRunning /\
        TargetSize u' = (upcloud.Count g, None)) /\
  (let u := Mock.controller "group1" 1 in
   let w := Mock.start
              (Mock.script [Ok (Mock.group "group1" 3 "running")]
                 (Err (ErrRemote "no answer"))
                 (Ok (Mock.group "group1" 1 "scaling-up"))) in
   exists u' w',
     IncreaseSize 5 u w = (None, u', w') /\
     TargetSize u' = (3, None) /\
     Go.add (size u) 5 = 6).
Proof.
  split.
  - intros E Svc Consts delta u w u' w' Hrun.
    assert (Hs : scaleNodeGroup (Go.add (size u) delta) u w = (None, u', w')).
    { destruct Hrun as [Hrun|Hrun].
      - unfold IncreaseSize in Hrun. destruct (delta <=? 0); [discriminate|].
        destruct (_ >? _); [discriminate|assumption].
      - unfold DecreaseTargetSize in Hrun. destruct (delta >=? 0); [discriminate|].
        destruct (_ <? _); [discriminate|assumption]. }
    destruct (scaleNodeGroup_ok _ _ _ Hs) as [m [polls [g [Hlog [Hall [Hst ->]]]]]].
    exists m, polls, g. repeat split; assumption.
  - eexists. eexists. split; [vm_compute; reflexivity|].
    split; reflexivity.
Qed.


(** C1 at work: three nodes, the deletion of the second refused. The first
    node is deleted and the cached size follows the remote count, 2; the
    call returns the error of the second deletion and keeps that size; the
    third node is not reached. *)
Lemma DeleteNodes_one_at_a_time_witness :
  let u := Mock.controller "group1" 3 in
  let w := Mock.start Mock.refusing in
  exists u1 w1 w2,
    DeleteNodes [Mock.node "group1-node-1"] u w = (None, u1, w1) /\
    size u1 = 2 /\
    DeleteNodes Mock.threeNodes u w
      = (Some (ErrRemote "node deletion refused"), u1, w2) /\
    deletions (log w2)
      = [("group1-node-1"%string, None);
         ("group1-node-2"%string, Some (ErrRemote "node deletion refused"))].
Proof.
  intros u w.
  pose (r := DeleteNodes [Mock.node "group1-node-1"] u w).
  assert (Hpre : DeleteNodes [Mock.node "group1-node-1"] u w
                 = (None, snd (fst r), snd r)) by (vm_compute; reflexivity).
  destruct (DeleteNodes_one_at_a_time [Mock.node "group1-node-1"]
              (Mock.node "group1-node-2") [Mock.node "group1-node-3"]
              u w Hpre) as [_ [_ Hk]].
  exists (snd (fst r)), (snd r).
  exists (snd (deleteNode (snd (fst r)) "group1-node-2" (snd r))).
  split; [exact Hpre|]. split; [vm_compute; reflexivity|].
  split; [|vm_compute; reflexivity].
  change Mock.threeNodes
    with ([Mock.node "group1-node-1"] ++
          Mock.node "group1-node-2" :: [Mock.node "group1-node-3"]).
  rewrite Hk. vm_compute. reflexivity.
Defined.

(** C2 fails as stated: the controllers start within the bounds 1 and 20
    and the operations succeed, yet the cached size leaves the bounds. An
    [IncreaseSize 1] after which the remote reports 25 nodes caches 25; a
    [DeleteNodes] of the only node, after which the remote reports none,
    caches 0. *)
Lemma size_bounds_not_kept :
  (let u := Mock.controller "group1" 1 in
   let w := Mock.start
              (Mock.script [Ok (Mock.group "group1" 25 "running")]
                 (Err (ErrRemote "no answer"))
                 (Ok (Mock.group "group1" 1 "scaling-up"))) in
   sizeInBounds u /\
   exists u' w',
     IncreaseSize 1 u w = (None, u', w') /\
     size u' = 25 /\ maxSize u' = 20 /\ ~ sizeInBounds u') /\
  (let u := Mock.controller "group1" 1 in
   let w := Mock.start
              (Mock.script [Ok (Mock.group "group1" 0 "running")]
                 (Err (ErrRemote "no answer"))
                 (Err (ErrRemote "no answer"))) in
   sizeInBounds u /\
   exists u' w',
     DeleteNodes [Mock.node "group1-node-1"] u w = (None, u', w') /\
     size u' = 0 /\ minSize u' = 1 /\ ~ sizeInBounds u').
Proof.
  split; intros u w.
  - split; [vm_compute; split; discriminate|].
    eexists. eexists. split; [vm_compute; reflexivity|].
    split; [reflexivity|]. split; [reflexivity|].
    unfold sizeInBounds. simpl. lia.
  - split; [vm_compute; split; discriminate|].
    eexists. eexists. split; [vm_compute; reflexivity|].
    split; [reflexivity|]. split; [reflexivity|].
    unfold sizeInBounds. simpl. unfold nodeGroupMinSize. lia.
Qed.

(** The amended C2 at work: an [IncreaseSize 1] from size 1, after which
    the remote reports 2 nodes. *)
Lemma size_bounds_follow_remote_witness :
  let u := Mock.controller "group1" 1 in
  let w := Mock.start
             (Mock.script [Ok (Mock.group "group1" 1 "scaling-up");
                           Ok (Mock.group "group1" 2 "running")]
                (Err (ErrRemote "no answer"))
                (Ok (Mock.group "group1" 1 "scaling-up"))) in
  sizeInBounds u /\
  exists u' w',
    mutate (MIncreaseSize 1) u w = (None, u', w') /\
    size u' = 2 /\ sizeInBounds u'.
Proof.
  intros u w.
  assert (Hinv : sizeInBounds u) by (vm_compute; split; discriminate).
  split; [exact Hinv|].
  pose (r := mutate (MIncreaseSize 1) u w).
  assert (Hrun : mutate (MIncreaseSize 1) u w = (None, snd (fst r), snd r))
    by (vm_compute; reflexivity).
  exists (snd (fst r)), (snd r).
  split; [exact Hrun|]. split; [vm_compute; reflexivity|].
  destruct (size_bounds_follow_remote (MIncreaseSize 1) w Hinv Hrun)
    as [evs [Hlog [_ [_ Hin]]]].
  apply Hin. vm_compute in Hlog. subst evs.
  intros req g Hev Hst.
  destruct Hev as [Hev|[Hev|[Hev|[]]]]; inversion Hev; subst;
    try discriminate Hst; vm_compute; split; discriminate.
Defined.

(** C4 at work: the remote never reports [running]; a wait of seven
    seconds reads the group three times and returns the timeout error,
    after the deadline. *)
Lemma waitNodeGroupState_failures_witness :
  let u := Mock.controller "group1" 1 in
  let w := Mock.start Mock.stuck in
  let r := waitNodeGroupState u "running"%string (7 * Go.Second) w in
  List.length (log (snd r)) = 3%nat /\
  (exists i, fst r = Err (ErrTimedOut (Id u) i)) /\
  timeNow w + 7 * Go.Second <= timeNow (snd r).
Proof.
  intros u w r. split; [vm_compute; reflexivity|].
  destruct (proj1 waitNodeGroupState_failures u "running"%string
              (7 * Go.Second) w) as [evs [Hlog [_ Hout]]].
  apply Hout. vm_compute in Hlog. subst evs.
  repeat constructor; eexists; (split; [reflexivity|discriminate]).
Defined.

(** C3 at work, on the run of the package's test: [group2] at size 3,
    [DecreaseTargetSize (-1)], the remote reports 2 nodes. *)
Lemma TargetSize_is_remote_count_witness :
  let u := Mock.controller "group2" 3 in
  let w := Mock.start
             (Mock.script [Ok (Mock.group "group2" 2 "running")]
                (Err (ErrRemote "no answer"))
                (Ok (Mock.group "group2" 2 "running"))) in
  exists u' w',
    DecreaseTargetSize (-1) u w = (None, u', w') /\
    TargetSize u' = (2, None).
Proof.
  intros u w.
  pose (r := DecreaseTargetSize (-1) u w).
  assert (Hrun : DecreaseTargetSize (-1) u w = (None, snd (fst r), snd r))
    by (vm_compute; reflexivity).
  exists (snd (fst r)), (snd r). split; [exact Hrun|].
  destruct (proj1 TargetSize_is_remote_count _ _ _ (-1) u w _ _
              (or_intror Hrun)) as [m [polls [g [Hlog [_ [_ Ht]]]]]].
  rewrite Ht. vm_compute in Hlog.
  destruct polls as [|ev polls]; simpl in Hlog.
  - inversion Hlog; subst. reflexivity.
  - destruct polls; discriminate Hlog.
Defined.

(** C5 fails as stated, in two ways. With [delta] the largest [int], the
    sum [size + delta] exceeds [maxSize], yet the sum the code computes
    has wrapped to the smallest [int], passes the check, and the modify
    request is sent. With a cached size beyond [maxSize] and [delta = 0],
    the sum exceeds [maxSize] and the error is the delta error, not the
    bounds error. *)
Lemma bounds_check_not_reached :
  (let u := Mock.controller "group1" 1 in
   let w := Mock.start
              (Mock.script [] (Err (ErrRemote "no answer"))
                 (Err (ErrRemote "invalid count"))) in
   let delta := Go.max_int in
   0 < delta /\ size u + delta > maxSize u /\
   exists w',
     IncreaseSize delta u w
       = (Some (ErrScale "group1" (ErrRemote "invalid count")), u, w') /\
     log w' = [EvModifyKubernetesNodeGroup (modifyRequest u Go.min_int)
                 (Err (ErrRemote "invalid count"))]) /\
  (let u := Mock.controller "group1" 25 in
   let w := Mock.start
              (Mock.script [] (Err (ErrRemote "no answer"))
                 (Err (ErrRemote "no answer"))) in
   size u + 0 > maxSize u /\
   IncreaseSize 0 u w = (Some (ErrDelta 0), u, w) /\
   IncreaseSize 0 u w
     <> (Some (ErrIncrease (size u) (size u + 0) (maxSize u)), u, w)).
Proof.
  split; intros u w.
  - intros delta. split; [reflexivity|]. split; [reflexivity|].
    eexists. split; vm_compute; reflexivity.
  - split; [reflexivity|]. split; [reflexivity|].
    vm_compute. discriminate.
Qed.

(** The amended C5 at work: [IncreaseSize 25] at size 1 with the bound
    20. *)
Lemma size_checks_precede_remote_witness :
  let u := Mock.controller "group1" 1 in
  let w := Mock.start Mock.stuck in
  0 < 25 /\ Go.in_range (size u + 25) /\ size u + 25 > maxSize u /\
  IncreaseSize 25 u w = (Some (ErrIncrease 1 26 20), u, w).
Proof.
  intros u w.
  assert (Hd : 0 < 25) by reflexivity.
  assert (Hr : Go.in_range (size u + 25)) by (vm_compute; split; discriminate).
  assert (Hs : size u + 25 > maxSize u) by reflexivity.
  split; [exact Hd|]. split; [exact Hr|]. split; [exact Hs|].
  exact (proj1 (proj2 (size_checks_precede_remote 25 u w)) Hd Hr Hs).
Defined.

(** C6 at work: three groups listed, the details of the second cannot be
    read. The new collection holds the first and the third, whatever the
    manager held before. *)
Lemma Refresh_replaces_collection_witness :
  let w := Mock.start Mock.listingThree in
  exists groups w',
    Refresh Mock.twoGroups w =
      (None,
       {| managerClusterID := managerClusterID Mock.twoGroups;
          nodeGroups := groups |}, w') /\
    map name groups = ["group1"; "group3"]%string /\
    map (fun c => List.length (nodes c)) groups = [2; 1]%nat.
Proof.
  intros w.
  pose (r := callGetKubernetesNodeGroups
               {| request.GroupsClusterUUID := managerClusterID Mock.twoGroups |}
               w).
  assert (Hlist : callGetKubernetesNodeGroups
                    {| request.GroupsClusterUUID :=
                         managerClusterID Mock.twoGroups |} w
                  = (Ok [Mock.group "group1" 2 "running";
                         Mock.group "group2" 1 "running";
                         Mock.group "group3" 1 "running"], snd r))
    by (vm_compute; reflexivity).
  destruct (Refresh_replaces_collection Mock.twoGroups w Hlist)
    as [groups [w' [Hrun _]]].
  exists groups, w'. split; [exact Hrun|].
  vm_compute in Hrun. inversion Hrun; subst. split; reflexivity.
Defined.

(** C9 at work: the listing fails, the manager keeps its two
    controllers. *)
Lemma Refresh_listing_failure_witness :
  let w := Mock.start Mock.unreachable in
  exists w',
    Refresh Mock.twoGroups w
      = (Some (ErrRemote "connection refused"), Mock.twoGroups, w') /\
    List.length (log w') = 1%nat.
Proof.
  intros w.
  pose (r := callGetKubernetesNodeGroups
               {| request.GroupsClusterUUID := managerClusterID Mock.twoGroups |}
               w).
  assert (Hlist : callGetKubernetesNodeGroups
                    {| request.GroupsClusterUUID :=
                         managerClusterID Mock.twoGroups |} w
                  = (Err (ErrRemote "connection refused"), snd r))
    by (vm_compute; reflexivity).
  destruct (Refresh_listing_failure Mock.twoGroups w Hlist) as [Hrun Hlog].
  exists (snd r). split; [exact Hrun|].
  rewrite Hlog. reflexivity.
Defined.

(** C7 at work: the node of the second controller is resolved to it; a
    node that no controller has yields no group and no error. *)
Lemma NodeGroupForNode_scan_witness :
  let p := {| manager := Mock.twoGroups |} in
  (exists c,
     NodeGroupForNode p {| ObjectMetaName := "node-b";
                           SpecProviderID := "upcloud:////node-b" |}
       = (Some c, None) /\
     name c = "group2"%string) /\
  NodeGroupForNode p {| ObjectMetaName := "node-z";
                        SpecProviderID := "upcloud:////node-z" |}
    = (None, None).
Proof.
  intros p. split.
  - destruct (NodeGroupForNode_scan p
                {| ObjectMetaName := "node-b";
                   SpecProviderID := "upcloud:////node-b" |})
      as [_ [_ Hfound]].
    destruct Hfound as [before [c [after [Hrun _]]]].
    + exists (Mock.withNodes (Mock.controller "group2" 1)
                [Mock.instance "upcloud:////node-b"]).
      split; [right; left; reflexivity|].
      exists (Mock.instance "upcloud:////node-b").
      split; [left; reflexivity|reflexivity].
    + exists c. split; [exact Hrun|].
      vm_compute in Hrun. inversion Hrun; subst. reflexivity.
  - apply (NodeGroupForNode_scan p
             {| ObjectMetaName := "node-z";
                SpecProviderID := "upcloud:////node-z" |}).
    intros c Hin [n [Hn Hid]].
    destruct Hin as [<-|[<-|[]]]; destruct Hn as [<-|[]]; discriminate Hid.
Defined.

(** C8 at work, with the values the constants have in the vendored
    package: the node state "failed" is none of the three and maps to the
    error information that carries it. *)
Lemma state_mappers_total_witness :
  nodeStateToInstanceStatus "failed"%string
  = {| cloudprovider.InstState := cloudprovider.InstanceStateZero;
       cloudprovider.ErrorInfo :=
         Some {| cloudprovider.ErrorClass := cloudprovider.OtherErrorClass;
                 cloudprovider.ErrorCode := "failed" |} |}.
Proof.
  apply (proj1 state_mappers_total); discriminate.
Defined.

(** A wait that succeeds at the second read. *)
Lemma waitNodeGroupState_success_witness :
  let u := Mock.controller "group1" 1 in
  let w := Mock.start
             (Mock.script [Ok (Mock.group "group1" 1 "scaling-up");
                           Ok (Mock.group "group1" 2 "running")]
                (Err (ErrRemote "no answer")) (Err (ErrRemote "no answer"))) in
  exists g w',
    waitNodeGroupState u "running"%string timeoutWaitNodeGroupState w
      = (Ok g, w') /\
    upcloud.State g = "running"%string /\
    upcloud.Count g = 2 /\
    List.length (log w') = 2%nat.
Proof.
  intros u w.
  pose (r := waitNodeGroupState u "running"%string timeoutWaitNodeGroupState w).
  assert (Hrun : waitNodeGroupState u "running"%string
                   timeoutWaitNodeGroupState w
                 = (Ok (Mock.group "group1" 2 "running"), snd r))
    by (vm_compute; reflexivity).
  exists (Mock.group "group1" 2 "running"), (snd r).
  split; [exact Hrun|].
  split; [exact (proj1 (waitNodeGroupState_success _ _ _ _ Hrun))|].
  split; vm_compute; reflexivity.
Defined.

(** A scaling whose wait times out: the controller keeps its size. *)
Lemma scaling_failure_keeps_controller_witness :
  let u := Mock.controller "group1" 1 in
  let w := Mock.start Mock.stuck in
  exists err u' w',
    IncreaseSize 1 u w = (Some err, u', w') /\ u' = u /\ size u' = 1.
Proof.
  intros u w.
  pose (r := IncreaseSize 1 u w).
  assert (Hrun : IncreaseSize 1 u w
                 = (Some (ErrTimedOut (Id u) 401), snd (fst r), snd r))
    by (vm_compute; reflexivity).
  exists (ErrTimedOut (Id u) 401), (snd (fst r)), (snd r).
  split; [exact Hrun|].
  pose proof (scaling_failure_keeps_controller 1 u w (or_introl Hrun)) as Hu.
  split; [exact Hu|]. rewrite Hu. reflexivity.
Defined.

(** The calls of the refresh of three groups: the listing and three
    details reads; two controllers. *)
Lemma Refresh_calls_witness :
  let w := Mock.start Mock.listingThree in
  exists m' w',
    Refresh Mock.twoGroups w = (None, m', w') /\
    List.length (log w') = 4%nat /\
    List.length (nodeGroups m') = 2%nat.
Proof.
  intros w.
  pose (r := Refresh Mock.twoGroups w).
  assert (Hrun : Refresh Mock.twoGroups w = (None, snd (fst r), snd r))
    by (vm_compute; reflexivity).
  exists (snd (fst r)), (snd r). split; [exact Hrun|].
  destruct (Refresh_calls _ _ Hrun) as [gs [evs [Hlog [_ [_ [Hg _]]]]]].
  split; [|rewrite Hg]; vm_compute in Hlog; inversion Hlog; subst;
    vm_compute; reflexivity.
Defined.



(** The configuration from the environment of the scenario, with a user
    agent in the options. *)
Lemma config_then_service_witness :
  let opts := {| OptionsUserAgent := "cluster-autoscaler/1.29" |} in
  exists cfg,
    cloudConfigFromEnv Scenario.getenv opts = (cfg, None) /\
    newUpCloudService "upcloud-go-api" cfg =
      (Some {| ClientUsername := "autoscaler";
               ClientPassword := "secret";
               ClientUserAgent := "cluster-autoscaler/1.29" |}, None).
Proof.
  intros opts.
  pose (r := cloudConfigFromEnv Scenario.getenv opts).
  assert (Hrun : cloudConfigFromEnv Scenario.getenv opts = (fst r, None))
    by (vm_compute; reflexivity).
  exists (fst r). split; [exact Hrun|].
  destruct (@config_then_service Scenario.getenv opts
              "upcloud-go-api"%string (fst r) Hrun)
    as [_ [_ [_ [Hsvc _]]]].
  rewrite Hsvc. vm_compute. reflexivity.
Defined.

(** Two controllers of one cluster with the same [Id] have the same
    name. *)
Lemma Id_identifies_witness :
  let u := Mock.controller "group1" 1 in
  let v := Mock.controller "group1" 3 in
  occurs "/"%char (clusterID u) = false /\
  Id u = Id v /\ name u = name v.
Proof.
  intros u v.
  assert (Hu : occurs "/"%char (clusterID u) = false) by reflexivity.
  assert (Hv : occurs "/"%char (clusterID v) = false) by reflexivity.
  assert (Hid : Id u = Id v) by reflexivity.
  split; [exact Hu|]. split; [exact Hid|].
  exact (proj2 (proj1 (Id_identifies u v Hu Hv) Hid)).
Defined.

(** The template of the group of the package's test: the label that is
    given twice has its last value, and the one taint of the group comes
    second, after a zero-valued taint. *)
Lemma TemplateNodeInfo_labels_witness :
  let u := Mock.controller "test-1" 0 in
  exists info,
    TemplateNodeInfo u Scenario.shape = Ok info /\
    apiv1.Labels (schedulerframework.node info) "test-label"
      = Some "test-label-value"%string /\
    apiv1.Labels (schedulerframework.node info) "other" = None.
Proof.
  intros u.
  pose (r := TemplateNodeInfo u Scenario.shape).
  destruct r as [info|err] eqn:Hr; [|vm_compute in Hr; discriminate Hr].
  subst r. exists info. split; [exact Hr|].
  split; rewrite (TemplateNodeInfo_labels _ _ _ Hr); reflexivity.
Defined.

Lemma TemplateNodeInfo_taints_witness :
  let u := Mock.controller "test-1" 0 in
  exists info,
    TemplateNodeInfo u Scenario.shape = Ok info /\
    apiv1.Taints (schedulerframework.node info)
    = [apiv1.zeroTaint;
       {| apiv1.Key := "foo"; apiv1.Value := "bar";
          apiv1.Effect := "NoSchedule" |}].
Proof.
  intros u.
  destruct (proj2 (TemplateNodeInfo_taints u Scenario.shape))
    as [info [Hinfo [Htaints _]]].
  - vm_compute. discriminate.
  - exists info. split; [exact Hinfo|]. rewrite Htaints. reflexivity.
Defined.

(** A label filter whose key holds no "=" is told by its query
    parameter, whatever the value holds. With a "=" in the key it is not:
    the key "a" with the value "b=c" and the key "a=b" with the value "c"
    have the same parameter. *)
Lemma ToQueryParam_injective_witness :
  let f := filter.FilterLabel
             {| upcloudapi.Key := "capu_cluster_id";
                upcloudapi.Value := "a=b" |} in
  occurs "="%char (filterKey f) = false /\
  filter.ToQueryParam f = "label=capu_cluster_id=a=b"%string /\
  f = f /\
  filter.ToQueryParam
    (filter.FilterLabel {| upcloudapi.Key := "a"; upcloudapi.Value := "b=c" |})
  = filter.ToQueryParam
      (filter.FilterLabel {| upcloudapi.Key := "a=b"; upcloudapi.Value := "c" |}).
Proof.
  intros f.
  assert (Hk : occurs "="%char (filterKey f) = false) by reflexivity.
  split; [exact Hk|]. split; [reflexivity|].
  split; [exact (ToQueryParam_injective f f Hk Hk eq_refl)|reflexivity].
Defined.

#[local] Existing Instance Scenario.servers.

